(** * Smart Factory dashboard: state engine, predictive maintenance,
      telemetry channel and offline cache

    A shallow embedding of [src/sw.js]: the service worker (cache
    install / activate / fetch), and the first [SmartFactory3D] class
    (production lines, realtime events, predictive maintenance, socket
    reconnection and teardown).

    Conventions.
    - Modules [Factory] and [Predictive] idealise JavaScript numbers as
      rationals ([Q]) and take timestamps and [Date] time values as whole
      milliseconds ([Z]); they carry the statements that rounding does not
      affect.  Module [Doubles] computes the predictive assessment in
      binary64, operation by operation, with [Date]'s range.
    - Modules [Factory] and [Predictive] read [this.machines] and
      [this.productionLines] as finite maps over their own string keys,
      which is how the code behaves for every key that is not the name of
      a property inherited from [Object.prototype].  Module [Prototype]
      adds the inherited names and the exceptions they lead to; [Doubles]
      and [Selecting] read machines through it.
    - Scene-graph objects (meshes, groups, canvases) are not modelled; of a
      machine's view state only the two colours that the realtime handler
      rewrites are kept. *)

From Stdlib Require Import ZArith QArith Qround Lqa Lia Floats Uint63.
From stdpp Require Import gmap strings list fin_maps.

Local Open Scope string_scope.

(** ** JavaScript helpers *)

Module JS.

(** [ToIntegerOrInfinity] on a finite number: truncation toward zero, as
    applied by the [Date] constructor to a fractional time value. *)
Definition trunc (x : Q) : Z :=
  if Qle_bool 0 x then Qfloor x else Qceiling x.

(** [Math.round]: nearest integer, halves toward +infinity. *)
Definition round (x : Q) : Z := Qfloor (x + (1 # 2))%Q.

(** [Math.max] and [Math.min] on two finite numbers. *)
Definition max (a b : Q) : Q := if Qle_bool a b then b else a.
Definition min (a b : Q) : Q := if Qle_bool a b then a else b.

(** Truthiness of a number: every number but zero. *)
Definition truthy (x : Q) : bool := negb (Qeq_bool x 0).

(** [a || b] where [a] is an optional numeric property of a decoded
    object and [b] a number: [b] is taken when [a] is missing or falsy. *)
Definition or_else (a : option Q) (b : Q) : Q :=
  match a with
  | Some v => if truthy v then v else b
  | None => b
  end.

(** [s.startsWith(p)] *)
Definition startsWith (p s : string) : bool := String.prefix p s.

End JS.

(** ** Factory state engine *)

Module Factory.

(** One entry of a [machinesConfig] array. *)
Record MachineConfig := {
  cfg_id : string;
  cfg_name : string;
  cfg_type : string;
  cfg_status : string
}.

(** The object stored under [this.machines[id]]. *)
Record Machine := {
  machine_id : string;
  machine_name : string;
  status : string;
  bodyColor : Z;
  lightColor : Z;
  position : Z * Z * Z;
  temperature : Q;
  vibration : Q;
  efficiency : Q;
  lastMaintenance : Z;
  nextMaintenance : Z
}.

(** The object stored under [this.productionLines[lineId]]. *)
Record Line := {
  line_id : string;
  line_name : string;
  line_status : string;
  line_machines : list string;
  line_color : string;
  line_position : Z
}.

Record Store := {
  machines : gmap string Machine;
  productionLines : gmap string Line
}.

Definition emptyStore : Store :=
  {| machines := ∅; productionLines := ∅ |}.

(** The values [createMachine] reads from [Math.random()] (five draws, in
    source order) and [Date.now()] (two readings). *)
Record Entropy := {
  rnd_temperature : Q;
  rnd_vibration : Q;
  rnd_efficiency : Q;
  rnd_last : Q;
  rnd_next : Q;
  now_last : Z;
  now_next : Z
}.

(** *** calculateLineStatus *)

(** The body of [calculateLineStatus] once [statuses] has been
    extracted. *)
Definition aggregate (statuses : list string) : string :=
  if existsb (String.eqb "offline") statuses
     || existsb (String.eqb "maintenance") statuses
  then "stopped"
  else if forallb (fun s => String.eqb s "running") statuses
  then "running"
  else "warning".

Definition calculateLineStatus (machinesConfig : list MachineConfig) : string :=
  aggregate (map cfg_status machinesConfig).

(** The aggregation rule as the specification words it: three rules in
    order of precedence. *)
Definition spec_line_status (statuses : list string) : string :=
  if decide (Exists (fun s => s = "offline" ∨ s = "maintenance") statuses)
  then "stopped"
  else if decide (Forall (fun s => s = "running") statuses)
  then "running"
  else "warning".

(** *** getMachineColor *)

Definition getMachineColor (st : string) : Z :=
  (if String.eqb st "running" then 0x00ff88
   else if String.eqb st "maintenance" then 0xffa502
   else if String.eqb st "offline" then 0xff4757
   else if String.eqb st "stopped" then 0x666666
   else 0x888888)%Z.

(** The colour of the status light, chosen the same way by
    [createMachine] and [updateMachineVisualStatus]. *)
Definition statusLightColor (st : string) : Z :=
  (if String.eqb st "offline" then 0xff0000
   else if String.eqb st "maintenance" then 0xffaa00
   else 0x00ff00)%Z.

(** *** createMachine *)

Definition month_ms : Q := (30 * 24 * 60 * 60 * 1000)%Q.

Definition createMachine (id name : string) (x y z : Z) (st : string)
    (color : Z) (type lineId : string) (e : Entropy) (s : Store) : Store :=
  let m := {|
    machine_id := id;
    machine_name := name;
    status := st;
    bodyColor := color;
    lightColor := statusLightColor st;
    position := (x, y, z);
    temperature := (rnd_temperature e * 50 + 50)%Q;
    vibration := (rnd_vibration e * 10)%Q;
    efficiency := (rnd_efficiency e * 30 + 70)%Q;
    lastMaintenance := JS.trunc (inject_Z (now_last e) - rnd_last e * month_ms)%Q;
    nextMaintenance := JS.trunc (inject_Z (now_next e) + rnd_next e * month_ms)%Q
  |} in
  {| machines := <[id := m]> (machines s);
     productionLines := productionLines s |}.

(** *** createProductionLine *)

(** The [machineStatus] constant of the [forEach] callback. *)
Definition machineStatusOf (lineStatus : string) (config : MachineConfig)
    : string :=
  if String.eqb lineStatus "stopped" then "stopped" else cfg_status config.

(** The [forEach] over [machinesConfig]; [index] is the position of the
    head of [cfgs] in the whole array and [ent i] the entropy consumed
    by the machine at position [i]. *)
Fixpoint createMachines (lineId lineStatus : string) (zPosition : Z)
    (ent : nat -> Entropy) (index : nat) (cfgs : list MachineConfig)
    (s : Store) : Store :=
  match cfgs with
  | [] => s
  | config :: rest =>
      let xPosition := (-8 + Z.of_nat index * 5)%Z in
      let machineStatus := machineStatusOf lineStatus config in
      let color := getMachineColor machineStatus in
      createMachines lineId lineStatus zPosition ent (S index) rest
        (createMachine (cfg_id config) (cfg_name config) xPosition 0
           zPosition machineStatus color (cfg_type config) lineId
           (ent index) s)
  end.

Definition createProductionLine (lineId lineName : string)
    (machinesConfig : list MachineConfig) (zPosition : Z)
    (lineColor : string) (ent : nat -> Entropy) (s : Store) : Store :=
  let lineStatus := calculateLineStatus machinesConfig in
  let s1 := createMachines lineId lineStatus zPosition ent 0 machinesConfig s in
  {| machines := machines s1;
     productionLines :=
       <[lineId := {| line_id := lineId;
                      line_name := lineName;
                      line_status := lineStatus;
                      line_machines := map cfg_id machinesConfig;
                      line_color := lineColor;
                      line_position := zPosition |}]>
         (productionLines s1) |}.

(** *** Realtime events *)

(** A decoded telemetry frame.  [ev_temperature], [ev_vibration] and
    [ev_efficiency] are [None] when the property is missing. *)
Record Event := {
  ev_type : string;
  machineId : string;
  ev_status : string;
  ev_temperature : option Q;
  ev_vibration : option Q;
  ev_efficiency : option Q;
  message : string
}.

(** Calls that leave the state engine: the page's [updateMachineStatus]
    hook, the rebuild of the machine list and the alert surface. *)
Inductive UiEffect :=
| UiMachineStatus (id st : string)
| UiMachineList
| UiAlert (msg : string).

Definition updateMachineVisualStatus (id st : string) (s : Store)
    : Store * list UiEffect :=
  match machines s !! id with
  | None => (s, [])
  | Some machine =>
      let color := statusLightColor st in
      let body :=
        (if String.eqb st "running" then 0x00ff88
         else if String.eqb st "maintenance" then 0xffa502
         else 0xff4757)%Z in
      let machine' := {|
        machine_id := machine_id machine;
        machine_name := machine_name machine;
        status := status machine;
        bodyColor := body;
        lightColor := color;
        position := position machine;
        temperature := temperature machine;
        vibration := vibration machine;
        efficiency := efficiency machine;
        lastMaintenance := lastMaintenance machine;
        nextMaintenance := nextMaintenance machine
      |} in
      ({| machines := <[id := machine']> (machines s);
          productionLines := productionLines s |},
       [UiMachineStatus id st])
  end.

(** The four assignments of the [machineStatus] branch. *)
Definition applyStatus (data : Event) (machine : Machine) : Machine := {|
  machine_id := machine_id machine;
  machine_name := machine_name machine;
  status := ev_status data;
  bodyColor := bodyColor machine;
  lightColor := lightColor machine;
  position := position machine;
  temperature := JS.or_else (ev_temperature data) (temperature machine);
  vibration := JS.or_else (ev_vibration data) (vibration machine);
  efficiency := JS.or_else (ev_efficiency data) (efficiency machine);
  lastMaintenance := lastMaintenance machine;
  nextMaintenance := nextMaintenance machine
|}.

(** [handleRealtimeData] on a decoded object whose [machineId] finds a
    stored machine or nothing at all; [Prototype.handleRealtimeData] adds
    the ids that find an inherited value, and the frames that are not
    objects. *)
Definition handleRealtimeData (data : Event) (s : Store)
    : Store * list UiEffect :=
  let '(s1, fx1) :=
    if String.eqb (ev_type data) "machineStatus" then
      match machines s !! machineId data with
      | Some machine =>
          let s' := {| machines :=
                         <[machineId data := applyStatus data machine]> (machines s);
                       productionLines := productionLines s |} in
          let '(s'', fx) :=
            updateMachineVisualStatus (machineId data) (ev_status data) s' in
          (s'', (fx ++ [UiMachineList])%list)
      | None => (s, [])
      end
    else (s, []) in
  if String.eqb (ev_type data) "alert"
  then (s1, (fx1 ++ [UiAlert (message data)])%list)
  else (s1, fx1).

(** The store after a sequence of frames, oldest first. *)
Definition handleAll (evs : list Event) (s : Store) : Store :=
  fold_left (fun acc data => fst (handleRealtimeData data acc)) evs s.

(** The statuses currently stored for the members of a line, in member
    order (a member id with no machine contributes nothing). *)
Definition memberStatuses (s : Store) (l : Line) : list string :=
  omap (fun id => status <$> machines s !! id) (line_machines l).

(** A line whose stored status is the aggregation rule evaluated on the
    statuses its members have now. *)
Definition lineFresh (s : Store) (l : Line) : Prop :=
  line_status l = aggregate (memberStatuses s l).

End Factory.

(** ** Predictive maintenance *)

Module Predictive.
Import Factory.

Record Factors := {
  f_temperature : Q;
  f_vibration : Q;
  f_efficiency : Q;
  runTime : Z;
  historicalPattern : Q
}.

Record Recommendation := {
  priority : string;
  action : string;
  color : string
}.

Record Assessment := {
  riskScore : Q;
  daysToMaintenance : Z;
  predictedMaintenanceDate : Z;
  factors : Factors;
  recommendation : Recommendation
}.

Definition day_ms : Q := (24 * 60 * 60 * 1000)%Q.

(** The four local constants of [calculatePredictiveMaintenance]. *)
Definition tempRisk (f : Factors) : Q :=
  JS.max 0 ((f_temperature f - 75) / 25)%Q.

Definition vibrationRisk (f : Factors) : Q :=
  (f_vibration f / 10)%Q.

Definition efficiencyRisk (f : Factors) : Q :=
  JS.max 0 ((85 - f_efficiency f) / 20)%Q.

Definition timeRisk (f : Factors) : Q :=
  JS.min 1 (inject_Z (runTime f) / month_ms)%Q.

Definition overallRisk (f : Factors) : Q :=
  ((tempRisk f + vibrationRisk f + efficiencyRisk f + timeRisk f) / 4)%Q.

(** The local [daysToMaintenance], before it is rounded for the
    result. *)
Definition maintenanceWindow (risk : Q) : Q :=
  JS.max 0 (14 - risk * 14)%Q.

Definition getMaintenanceRecommendation (riskScore daysToMaintenance : Q)
    : Recommendation :=
  if negb (Qle_bool riskScore (8 # 10)) then
    {| priority := "CRITICAL";
       action := "🚨 Programar técnico inmediatamente";
       color := "#ff4757" |}
  else if negb (Qle_bool riskScore (6 # 10)) then
    {| priority := "HIGH";
       action := "⚠️ Programar técnico en 24-48 horas";
       color := "#ffa502" |}
  else if Qle_bool daysToMaintenance 2 then
    {| priority := "MEDIUM";
       action := "📅 Programar técnico esta semana";
       color := "#3742fa" |}
  else
    {| priority := "LOW";
       action := "✅ Funcionamiento normal";
       color := "#00ff88" |}.

(** The factors read off a machine; [now] is the first [Date.now()]
    reading and [rnd] the [Math.random()] draw of the simulated score. *)
Definition factorsOf (machine : Machine) (now : Z) (rnd : Q) : Factors := {|
  f_temperature := temperature machine;
  f_vibration := vibration machine;
  f_efficiency := efficiency machine;
  runTime := (now - lastMaintenance machine)%Z;
  historicalPattern := (rnd * (3 # 10) + (7 # 10))%Q
|}.

(** [now_run] and [now_date] are the two [Date.now()] readings, in
    source order; [None] is the [null] returned for an unknown id.  The
    arithmetic is exact; [Doubles.calculatePredictiveMaintenance] is the
    same computation in binary64, with the ids that find an inherited
    value. *)
Definition calculatePredictiveMaintenance (machineId : string)
    (now_run now_date : Z) (rnd : Q) (s : Store) : option Assessment :=
  match machines s !! machineId with
  | None => None
  | Some machine =>
      let factors := factorsOf machine now_run rnd in
      let overallRisk := overallRisk factors in
      let daysToMaintenance := maintenanceWindow overallRisk in
      let maintenanceDate :=
        JS.trunc (inject_Z now_date + daysToMaintenance * day_ms)%Q in
      Some {| riskScore := overallRisk;
              daysToMaintenance := JS.round daysToMaintenance;
              predictedMaintenanceDate := maintenanceDate;
              factors := factors;
              recommendation :=
                getMaintenanceRecommendation overallRisk daysToMaintenance |}
  end.

(** [assess machine now]: the assessment of a snapshot when both clock
    readings fall on the same millisecond. *)
Definition assess (machine : Machine) (now : Z) (rnd : Q) : option Assessment :=
  calculatePredictiveMaintenance (machine_id machine) now now rnd
    {| machines := {[ machine_id machine := machine ]};
       productionLines := ∅ |}.

End Predictive.

(** ** Telemetry channel: connection, reconnection, teardown *)

Module Channel.

Inductive ReadyState := CONNECTING | OPEN | CLOSING | CLOSED.

(** The part of a [SmartFactory3D] instance that [setupSocketConnection]
    and [dispose] touch, together with the platform's view of it.
    [sockets] lists every [WebSocket] constructed so far, oldest first
    (each carries this instance's [onclose] closure); [socket] is
    [this.socket] as an index into it; [timers] holds the delays of the
    [setTimeout] callbacks that have not fired yet, each of which calls
    [setupSocketConnection]. *)
Record State := {
  sockets : list ReadyState;
  socket : option nat;
  timers : list Z;
  animationId : option nat;
  animationCancelled : bool;
  rendererDisposed : bool
}.

(** What the host environment or the application can do next.  The
    boolean of [Timer] tells whether the [WebSocket] constructor called by
    the fired callback returns (it throws inside the [try] otherwise). *)
Inductive Label :=
| Open (i : nat)
| Message (i : nat)
| Error (i : nat)
| Close (i : nat)
| Timer (k : nat) (constructed : bool)
| Dispose.

Definition setupSocketConnection (constructed : bool) (st : State) : State :=
  if constructed then
    {| sockets := sockets st ++ [CONNECTING];
       socket := Some (length (sockets st));
       timers := timers st;
       animationId := animationId st;
       animationCancelled := animationCancelled st;
       rendererDisposed := rendererDisposed st |}
  else st.

(** [this.socket.onclose]. *)
Definition onclose (st : State) : State :=
  {| sockets := sockets st;
     socket := socket st;
     timers := timers st ++ [5000%Z];
     animationId := animationId st;
     animationCancelled := animationCancelled st;
     rendererDisposed := rendererDisposed st |}.

(** [WebSocket.prototype.close]: starts the closing handshake of a socket
    that is connecting or open, and does nothing otherwise. *)
Definition close (i : nat) (ss : list ReadyState) : list ReadyState :=
  match ss !! i with
  | Some CONNECTING | Some OPEN => <[i := CLOSING]> ss
  | _ => ss
  end.

Definition dispose (st : State) : State :=
  {| sockets := match socket st with
                | Some i => close i (sockets st)
                | None => sockets st
                end;
     socket := socket st;
     timers := timers st;
     animationId := animationId st;
     animationCancelled := match animationId st with
                           | Some _ => true
                           | None => animationCancelled st
                           end;
     rendererDisposed := true |}.

Definition withSockets (ss : list ReadyState) (st : State) : State :=
  {| sockets := ss;
     socket := socket st;
     timers := timers st;
     animationId := animationId st;
     animationCancelled := animationCancelled st;
     rendererDisposed := rendererDisposed st |}.

(** One turn of the event loop; [None] when the label cannot occur in
    [st] (an event on a socket that is already closed, a timer that is
    not pending). *)
Definition step (st : State) (l : Label) : option State :=
  match l with
  | Open i =>
      match sockets st !! i with
      | Some CONNECTING => Some (withSockets (<[i := OPEN]> (sockets st)) st)
      | _ => None
      end
  | Message i =>
      match sockets st !! i with
      | Some OPEN => Some st
      | _ => None
      end
  | Error i =>
      match sockets st !! i with
      | Some CLOSED | None => None
      | Some _ => Some st
      end
  | Close i =>
      match sockets st !! i with
      | Some CLOSED | None => None
      | Some _ => Some (onclose (withSockets (<[i := CLOSED]> (sockets st)) st))
      end
  | Timer k constructed =>
      match timers st !! k with
      | Some _ =>
          Some (setupSocketConnection constructed
                  {| sockets := sockets st;
                     socket := socket st;
                     timers := delete k (timers st);
                     animationId := animationId st;
                     animationCancelled := animationCancelled st;
                     rendererDisposed := rendererDisposed st |})
      | None => None
      end
  | Dispose => Some (dispose st)
  end.

Fixpoint run (ls : list Label) (st : State) : option State :=
  match ls with
  | [] => Some st
  | l :: rest =>
      match step st l with
      | Some st' => run rest st'
      | None => None
      end
  end.

(** The number of times [connect] has been called: one [WebSocket] per
    call. *)
Definition connects (st : State) : nat := length (sockets st).

(** The instance once [init] has run and the first socket has opened. *)
Definition connected : State :=
  {| sockets := [OPEN];
     socket := Some 0%nat;
     timers := [];
     animationId := Some 1%nat;
     animationCancelled := false;
     rendererDisposed := false |}.

(** Teardown as the specification describes it: after [dispose] no
    reconnect timer is pending and, whatever happens next, [connect] is
    not called again. *)
Definition teardownIsFinal : Prop :=
  ∀ st ls st',
    run ls (dispose st) = Some st' →
    timers (dispose st) = [] ∧ connects st' = connects (dispose st).

End Channel.

(** ** Service worker: versioned offline cache *)

Module ServiceWorker.

Definition CACHE_NAME : string := "smart-factory-v1.2".

Definition urlsToCache : list string :=
  [ "/";
    "/index.html";
    "/manifest.json";
    "https://cdnjs.cloudflare.com/ajax/libs/font-awesome/6.0.0/css/all.min.css" ].

Record Response := {
  r_status : Z;
  r_type : string;
  r_body : string
}.

Record Request := {
  method : string;
  url : string;
  destination : string
}.

(** [CacheStorage]: the named caches in creation order, each a map from
    request URL to the stored response. *)
Abbreviation CacheStorage := (list (string * gmap string Response)).

(** The network as [fetch] sees it: [None] is a rejected fetch. *)
Definition Network := string → option Response.

Definition cachesKeys (cs : CacheStorage) : list string := map fst cs.

Definition lookupCache (name : string) (cs : CacheStorage)
    : option (gmap string Response) :=
  snd <$> find (fun p => String.eqb (fst p) name) cs.

(** [caches.open(name)]: the cache is created when it does not exist. *)
Definition cachesOpen (name : string) (cs : CacheStorage) : CacheStorage :=
  match lookupCache name cs with
  | Some _ => cs
  | None => (cs ++ [(name, ∅)])%list
  end.

(** [caches.delete(name)] *)
Definition cachesDelete (name : string) (cs : CacheStorage) : CacheStorage :=
  filter (fun p => fst p ≠ name) cs.

(** The cache [name] after [f] has been applied to it. *)
Definition update (name : string)
    (f : gmap string Response → gmap string Response)
    (cs : CacheStorage) : CacheStorage :=
  map (fun p => if String.eqb (fst p) name then (fst p, f (snd p)) else p) cs.

(** [caches.match(request)]: the first cache, in creation order, that
    holds the URL answers. *)
Fixpoint cachesMatch (u : string) (cs : CacheStorage) : option Response :=
  match cs with
  | [] => None
  | (_, c) :: rest =>
      match c !! u with
      | Some r => Some r
      | None => cachesMatch u rest
      end
  end.

(** [response.ok] *)
Definition ok (r : Response) : bool :=
  (200 <=? r_status r)%Z && (r_status r <=? 299)%Z.

(** The responses [cache.addAll] takes: an ok status other than 206
    (Partial Content). *)
Definition addAllAccepts (r : Response) : bool :=
  ok r && negb (r_status r =? 206)%Z.

(** The fetching half of [cache.addAll]: every URL is fetched, and one
    rejected fetch or one response that is not accepted rejects the whole
    call before anything is stored. *)
Fixpoint fetchAll (network : Network) (urls : list string)
    : option (list (string * Response)) :=
  match urls with
  | [] => Some []
  | u :: rest =>
      match network u with
      | Some r =>
          if addAllAccepts r
          then cons (u, r) <$> fetchAll network rest
          else None
      | None => None
      end
  end.

Definition putAll (entries : list (string * Response))
    (c : gmap string Response) : gmap string Response :=
  fold_left (fun acc e => <[fst e := snd e]> acc) entries c.

Section Worker.

(** [resolve] turns a manifest entry into the absolute URL of the
    request made for it (resolution against the worker's location). *)
Variable resolve : string → string.

(** The [install] listener.  The boolean tells whether the promise
    given to [waitUntil] fulfilled; the worker is discarded and never
    activated when it did not. *)
Definition install (network : Network) (cs : CacheStorage)
    : CacheStorage * bool :=
  let cs1 := cachesOpen CACHE_NAME cs in
  match fetchAll network (map resolve urlsToCache) with
  | Some entries => (update CACHE_NAME (putAll entries) cs1, true)
  | None => (cs1, false)
  end.

(** The [activate] listener: one [caches.delete] for every key that is
    not [CACHE_NAME]. *)
Definition activate (cs : CacheStorage) : CacheStorage :=
  fold_left
    (fun acc cacheName =>
       if negb (String.eqb cacheName CACHE_NAME)
       then cachesDelete cacheName acc
       else acc)
    (cachesKeys cs) cs.

(** How a request was answered. *)
Inductive Served :=
| PassThrough
| FromCache (r : Response)
| FromNetwork (r : Response)
| OfflinePage
| NoResponse.

(** The [fetch] listener. *)
Definition onFetch (network : Network) (request : Request)
    (cs : CacheStorage) : CacheStorage * Served :=
  if negb (String.eqb (method request) "GET") then (cs, PassThrough)
  else if negb (JS.startsWith "http" (url request)) then (cs, PassThrough)
  else
    match cachesMatch (url request) cs with
    | Some response => (cs, FromCache response)
    | None =>
        match network (url request) with
        | Some response =>
            if negb (r_status response =? 200)%Z
               || negb (String.eqb (r_type response) "basic")
            then (cs, FromNetwork response)
            else (update CACHE_NAME (<[url request := response]>)
                    (cachesOpen CACHE_NAME cs),
                  FromNetwork response)
        | None =>
            if String.eqb (destination request) "document"
            then (cs, OfflinePage)
            else (cs, NoResponse)
        end
    end.

End Worker.

End ServiceWorker.

(** ** The demo layout and sample frames *)

Module Demo.
Import Factory.

Definition config (id name type st : string) : MachineConfig :=
  {| cfg_id := id; cfg_name := name; cfg_type := type; cfg_status := st |}.

(** Lines A and C of [createDemoLayout]. *)
Definition lineA_config : list MachineConfig :=
  [ config "MACHINE_A1" "Stamping Press A1" "stamping" "running";
    config "MACHINE_A2" "Welding Station A2" "welding" "running";
    config "MACHINE_A3" "Assembly Unit A3" "assembly" "maintenance";
    config "MACHINE_A4" "Quality Check A4" "quality" "stopped" ].

Definition lineC_config : list MachineConfig :=
  [ config "MACHINE_C1" "Injection Molder C1" "molding" "running";
    config "MACHINE_C2" "Cooling Station C2" "cooling" "running";
    config "MACHINE_C3" "Trimming Unit C3" "trimming" "running";
    config "MACHINE_C4" "Packaging Line C4" "packaging" "running" ].

(** One possible outcome of the random draws: every draw is 1/2 and the
    clock reads 1.7e12 ms. *)
Definition midEntropy (i : nat) : Entropy :=
  {| rnd_temperature := 1 # 2;
     rnd_vibration := 1 # 2;
     rnd_efficiency := 1 # 2;
     rnd_last := 1 # 2;
     rnd_next := 1 # 2;
     now_last := 1700000000000;
     now_next := 1700000000000 |}.

Definition lineA_store : Store :=
  createProductionLine "A" "Automotive Parts" lineA_config (-6) "red"
    midEntropy emptyStore.

Definition lineC_store : Store :=
  createProductionLine "C" "Consumer Goods" lineC_config 6 "green"
    midEntropy emptyStore.

(** [{ type: 'machineStatus', machineId, status }] *)
Definition statusFrame (id st : string) : Event :=
  {| ev_type := "machineStatus"; machineId := id; ev_status := st;
     ev_temperature := None; ev_vibration := None; ev_efficiency := None;
     message := "" |}.

(** [{ type: 'machineStatus', machineId: 'MACHINE_C1', status: 'offline',
       vibration: 0, efficiency: 0 }]: a machine that has come to rest. *)
Definition haltedFrame : Event :=
  {| ev_type := "machineStatus"; machineId := "MACHINE_C1";
     ev_status := "offline";
     ev_temperature := None; ev_vibration := Some 0%Q; ev_efficiency := Some 0%Q;
     message := "" |}.

(** [{ type: 'machineStatus', machineId: 'MACHINE_C1', status: 'running',
       temperature: 200, vibration: 5, efficiency: 85 }] *)
Definition overheatFrame : Event :=
  {| ev_type := "machineStatus"; machineId := "MACHINE_C1";
     ev_status := "running";
     ev_temperature := Some 200%Q; ev_vibration := Some 5%Q;
     ev_efficiency := Some 85%Q;
     message := "" |}.

(** [{ type: 'machineStatus', machineId: 'MACHINE_C1', status: 'running',
       temperature: 75, vibration: 4, efficiency: 85 }] *)
Definition mildFrame : Event :=
  {| ev_type := "machineStatus"; machineId := "MACHINE_C1";
     ev_status := "running";
     ev_temperature := Some 75%Q; ev_vibration := Some 4%Q;
     ev_efficiency := Some 85%Q;
     message := "" |}.

(** MACHINE_C1 as stored in [lineC_store], and as stored once
    [mildFrame], respectively [overheatFrame], has been applied. *)
Definition machineC1 : Machine :=
  {| machine_id := "MACHINE_C1";
     machine_name := "Injection Molder C1";
     status := "running";
     bodyColor := 0x00ff88;
     lightColor := 0x00ff00;
     position := (-8, 0, 6)%Z;
     temperature := 150 # 2;
     vibration := 10 # 2;
     efficiency := 170 # 2;
     lastMaintenance := 1698704000000;
     nextMaintenance := 1701296000000 |}.

Definition mildC1 : Machine := applyStatus mildFrame machineC1.

Definition overheatedC1 : Machine := applyStatus overheatFrame machineC1.

(** A channel whose socket closed unexpectedly: the reconnect is pending. *)
Definition reconnectPending : Channel.State :=
  {| Channel.sockets := [Channel.CLOSED];
     Channel.socket := Some 0%nat;
     Channel.timers := [5000%Z];
     Channel.animationId := Some 1%nat;
     Channel.animationCancelled := false;
     Channel.rendererDisposed := false |}.

(** A worker served from https://factory.example, a network that answers
    every request with a 200 basic response, and no network at all. *)
Definition atFactory (u : string) : string :=
  if JS.startsWith "/" u then "https://factory.example" ++ u else u.

Definition online : ServiceWorker.Network :=
  fun u => Some {| ServiceWorker.r_status := 200;
                   ServiceWorker.r_type := "basic";
                   ServiceWorker.r_body := u |}.

Definition offline : ServiceWorker.Network := fun _ => None.

(** The storage left by the previous epoch. *)
Definition epoch_v1_1 : ServiceWorker.CacheStorage :=
  [ ("smart-factory-v1.1",
     {[ "https://factory.example/" :=
          {| ServiceWorker.r_status := 200;
             ServiceWorker.r_type := "basic";
             ServiceWorker.r_body := "previous" |} ]}) ].

End Demo.

(** ** Derived notions used to state properties *)

Module Notions.
Import Factory.

(** The status of two groups of machines taken together, from the status
    of each group. *)
Definition mergeStatus (a b : string) : string :=
  if String.eqb a "stopped" || String.eqb b "stopped" then "stopped"
  else if String.eqb a "running" && String.eqb b "running" then "running"
  else "warning".

(** The machine stored once a [machineStatus] frame that names it has
    been handled: the four assignments, then the two colours written by
    [updateMachineVisualStatus]. *)
Definition afterFrame (data : Event) (machine : Machine) : Machine :=
  let m := applyStatus data machine in
  {| machine_id := machine_id m;
     machine_name := machine_name m;
     status := status m;
     bodyColor :=
       (if String.eqb (ev_status data) "running" then 0x00ff88
        else if String.eqb (ev_status data) "maintenance" then 0xffa502
        else 0xff4757)%Z;
     lightColor := statusLightColor (ev_status data);
     position := position m;
     temperature := temperature m;
     vibration := vibration m;
     efficiency := efficiency m;
     lastMaintenance := lastMaintenance m;
     nextMaintenance := nextMaintenance m |}.

(** The fields no frame writes. *)
Definition sameIdentity (m m' : Machine) : Prop :=
  machine_id m' = machine_id m
  ∧ machine_name m' = machine_name m
  ∧ position m' = position m
  ∧ lastMaintenance m' = lastMaintenance m
  ∧ nextMaintenance m' = nextMaintenance m.

(** A frame that can change what is stored for machine [id]. *)
Definition names (id : string) (data : Event) : bool :=
  String.eqb (ev_type data) "machineStatus" && String.eqb (machineId data) id.

(** The three metrics are all non-zero. *)
Definition metricsNonZero (m : Machine) : Prop :=
  ¬ (temperature m == 0)%Q ∧ ¬ (vibration m == 0)%Q ∧ ¬ (efficiency m == 0)%Q.

(** Counters over a trace of the channel. *)
Definition isClose (l : Channel.Label) : bool :=
  match l with Channel.Close _ => true | _ => false end.

Definition isTimer (l : Channel.Label) : bool :=
  match l with Channel.Timer _ _ => true | _ => false end.

Definition isConnect (l : Channel.Label) : bool :=
  match l with Channel.Timer _ true => true | _ => false end.

Definition count (f : Channel.Label → bool) (ls : list Channel.Label) : nat :=
  length (List.filter f ls).

(** A response the [fetch] listener stores. *)
Definition cacheable (r : ServiceWorker.Response) : bool :=
  (ServiceWorker.r_status r =? 200)%Z
  && String.eqb (ServiceWorker.r_type r) "basic".

End Notions.

(** ** Property lookup through the prototype chain *)

Module Prototype.
Import Factory.

(** The names every object literal inherits from [Object.prototype] in a
    realm where no script has added to it or deleted from it.  Each is
    bound to a function, or (for [__proto__]) to [Object.prototype]
    itself: all truthy, none a machine. *)
Definition objectPrototypeNames : list string :=
  [ "constructor"; "hasOwnProperty"; "isPrototypeOf"; "propertyIsEnumerable";
    "toLocaleString"; "toString"; "valueOf"; "__proto__";
    "__defineGetter__"; "__defineSetter__";
    "__lookupGetter__"; "__lookupSetter__" ].

(** What [obj[key]] finds on an object literal used as a dictionary. *)
Inductive Property (A : Type) :=
| Own (a : A)
| Inherited
| Absent.

Arguments Own {A} a.
Arguments Inherited {A}.
Arguments Absent {A}.

Definition getProperty {A} (obj : gmap string A) (key : string) : Property A :=
  match obj !! key with
  | Some a => Own a
  | None =>
      if existsb (String.eqb key) objectPrototypeNames
      then Inherited
      else Absent
  end.

(** What [JSON.parse] hands to [handleRealtimeData]: [null], an object
    with the fields of the wire format, or any other value (a number, a
    string, a boolean, an array), on which [data.type] is [undefined]. *)
Inductive Frame :=
| JsonNull
| JsonObject (data : Event)
| JsonOther.

(** How a call of [handleRealtimeData] ends.  [Threw s written] is a
    [TypeError] with the store as it then is; [written] names the
    inherited property whose value received the status and metric
    assignments before the exception. *)
Inductive Outcome :=
| Returned (s : Store) (effects : list UiEffect)
| Threw (s : Store) (written : option string).

(** [handleRealtimeData] with the lookups of [this.machines] as the code
    makes them.  Reading [data.type] of [null] throws.  A [machineStatus]
    frame whose id finds an inherited value passes the guard, assigns
    [status] and the metrics onto that value, and throws in
    [updateMachineVisualStatus] at [machine.statusLight.material], before
    any collaborator is called. *)
Definition handleRealtimeData (frame : Frame) (s : Store) : Outcome :=
  match frame with
  | JsonNull => Threw s None
  | JsonOther => Returned s []
  | JsonObject data =>
      if String.eqb (ev_type data) "machineStatus" then
        match getProperty (machines s) (machineId data) with
        | Own _ =>
            let '(s', effects) := Factory.handleRealtimeData data s in
            Returned s' effects
        | Inherited => Threw s (Some (machineId data))
        | Absent => Returned s []
        end
      else
        let '(s', effects) := Factory.handleRealtimeData data s in
        Returned s' effects
  end.

End Prototype.

(** ** The predictive assessment in binary64 *)

Module Doubles.
Import Prototype.

Local Open Scope float_scope.

(** An integer as a number; exact below 2^53 in absolute value, which
    covers every clock reading and [Date] time value. *)
Definition ofZ (z : Z) : float :=
  if (z <? 0)%Z then - PrimFloat.of_uint63 (Uint63.of_Z (- z))
  else PrimFloat.of_uint63 (Uint63.of_Z z).

(** [undefined] read as a number. *)
Definition toNumber (v : option float) : float :=
  match v with
  | Some x => x
  | None => PrimFloat.nan
  end.

(** [Math.max(a, b)] and [Math.min(a, b)]. *)
Definition max (a b : float) : float :=
  if PrimFloat.is_nan a || PrimFloat.is_nan b then PrimFloat.nan
  else if a <? b then b else a.

Definition min (a b : float) : float :=
  if PrimFloat.is_nan a || PrimFloat.is_nan b then PrimFloat.nan
  else if b <? a then b else a.

(** The value of a finite double, exactly. *)
Definition exact (x : float) : option Q :=
  match Prim2SF x with
  | S754_zero _ => Some 0%Q
  | S754_finite s m e =>
      let q := if s then Z.neg m else Z.pos m in
      if (0 <=? e)%Z then Some (inject_Z (q * 2 ^ e))
      else Some (Qmake q (Z.to_pos (2 ^ (- e))))
  | _ => None
  end.

(** The values [Math.round] returns: an integer, or its argument when
    that is [NaN] or infinite. *)
Inductive Rounded :=
| Integer (n : Z)
| NotANumber
| Infinite (negative : bool).

(** [Math.round(x)]: the nearest integer, halves toward +infinity (the
    sign of a zero result is not kept). *)
Definition round (x : float) : Rounded :=
  match Prim2SF x with
  | S754_zero _ => Integer 0
  | S754_finite s m e =>
      let q := if s then Z.neg m else Z.pos m in
      if (0 <=? e)%Z then Integer (q * 2 ^ e)
      else Integer ((2 * q + 2 ^ (- e)) / (2 * 2 ^ (- e)))
  | S754_infinity s => Infinite s
  | S754_nan => NotANumber
  end.

(** [new Date(t)] for a number [t]: the time value after [TimeClip], in
    whole milliseconds; [None] is an invalid date. *)
Definition dateOf (t : float) : option Z :=
  match Prim2SF t with
  | S754_nan | S754_infinity _ => None
  | S754_zero _ => Some 0%Z
  | S754_finite s m e =>
      if 8640000000000000 <? PrimFloat.abs t then None
      else if (0 <=? e)%Z
      then Some ((if s then Z.neg m else Z.pos m) * 2 ^ e)%Z
      else
        let n := (Z.pos m / 2 ^ (- e))%Z in
        Some (if s then - n else n)%Z
  end.

(** The properties [calculatePredictiveMaintenance] reads of a stored
    machine; [lastMaintenance] is the time value of a valid date. *)
Record Machine := {
  temperature : float;
  vibration : float;
  efficiency : float;
  lastMaintenance : Z
}.

(** [None] is a factor read as [undefined]. *)
Record Factors := {
  f_temperature : option float;
  f_vibration : option float;
  f_efficiency : option float;
  runTime : float;
  historicalPattern : float
}.

Record Assessment := {
  riskScore : float;
  daysToMaintenance : Rounded;
  predictedMaintenanceDate : option Z;
  factors : Factors;
  recommendation : Predictive.Recommendation
}.

Definition getMaintenanceRecommendation (riskScore daysToMaintenance : float)
    : Predictive.Recommendation :=
  if 0x1.999999999999ap-1 <? riskScore then
    {| Predictive.priority := "CRITICAL";
       Predictive.action := "🚨 Programar técnico inmediatamente";
       Predictive.color := "#ff4757" |}
  else if 0x1.3333333333333p-1 <? riskScore then
    {| Predictive.priority := "HIGH";
       Predictive.action := "⚠️ Programar técnico en 24-48 horas";
       Predictive.color := "#ffa502" |}
  else if daysToMaintenance <=? 2 then
    {| Predictive.priority := "MEDIUM";
       Predictive.action := "📅 Programar técnico esta semana";
       Predictive.color := "#3742fa" |}
  else
    {| Predictive.priority := "LOW";
       Predictive.action := "✅ Funcionamiento normal";
       Predictive.color := "#00ff88" |}.

(** The [factors] object.  An inherited value has none of the four
    properties, and [new Date(undefined).getTime()] is [NaN]. *)
Definition factorsOf (machine : option Machine) (now : Z) (rnd : float)
    : Factors :=
  {| f_temperature := temperature <$> machine;
     f_vibration := vibration <$> machine;
     f_efficiency := efficiency <$> machine;
     runTime :=
       ofZ now - toNumber ((fun m => ofZ (lastMaintenance m)) <$> machine);
     historicalPattern := rnd * 0x1.3333333333333p-2 + 0x1.6666666666666p-1 |}.

Definition tempRisk (f : Factors) : float :=
  max 0 ((toNumber (f_temperature f) - 75) / 25).

Definition vibrationRisk (f : Factors) : float :=
  toNumber (f_vibration f) / 10.

Definition efficiencyRisk (f : Factors) : float :=
  max 0 ((85 - toNumber (f_efficiency f)) / 20).

Definition timeRisk (f : Factors) : float :=
  min 1 (runTime f / (30 * 24 * 60 * 60 * 1000)).

Definition overallRisk (f : Factors) : float :=
  (tempRisk f + vibrationRisk f + efficiencyRisk f + timeRisk f) / 4.

(** The local [daysToMaintenance]. *)
Definition maintenanceWindow (risk : float) : float :=
  max 0 (14 - risk * 14).

(** The argument of [new Date(...)]: the clock reading plus the window
    in milliseconds, multiplied out in source order. *)
Definition dateArgument (now : Z) (window : float) : float :=
  ofZ now + window * 24 * 60 * 60 * 1000.

(** [now_run] and [now_date] are the two [Date.now()] readings and [rnd]
    the [Math.random()] draw; [None] is the [null] returned when
    [this.machines[machineId]] is [undefined]. *)
Definition calculatePredictiveMaintenance (machineId : string)
    (now_run now_date : Z) (rnd : float) (machines : gmap string Machine)
    : option Assessment :=
  let assessment (machine : option Machine) :=
    let factors := factorsOf machine now_run rnd in
    let overallRisk := overallRisk factors in
    let daysToMaintenance := maintenanceWindow overallRisk in
    {| riskScore := overallRisk;
       daysToMaintenance := round daysToMaintenance;
       predictedMaintenanceDate :=
         dateOf (dateArgument now_date daysToMaintenance);
       factors := factors;
       recommendation :=
         getMaintenanceRecommendation overallRisk daysToMaintenance |} in
  match getProperty machines machineId with
  | Own machine => Some (assessment (Some machine))
  | Inherited => Some (assessment None)
  | Absent => None
  end.

(** Three readings of MACHINE_C1: one at which binary64 rounding decides
    the day count (82.5 degrees, vibration 10, efficiency 63), and the
    mild and the overheated readings of [Demo]. *)
Definition borderline : Machine :=
  {| temperature := 82.5; vibration := 10; efficiency := 63;
     lastMaintenance := 1698704000000 |}.

Definition mild : Machine :=
  {| temperature := 75; vibration := 4; efficiency := 85;
     lastMaintenance := 1698704000000 |}.

Definition overheated : Machine :=
  {| temperature := 200; vibration := 5; efficiency := 85;
     lastMaintenance := 1698704000000 |}.

End Doubles.

(** ** Machine selection *)

Module Selecting.
Import Factory Prototype.

(** [this.selectedMachine] and, for every machine id, the emissive colour
    of its body material as far as [selectMachine] has written it (a body
    never written keeps the material's black).  The camera move and the
    info panel that follow a successful selection are view effects and are
    left out. *)
Record Selection := {
  selectedMachine : option string;
  emissive : gmap string Z
}.

Definition noSelection : Selection :=
  {| selectedMachine := None; emissive := ∅ |}.

Definition emissiveOf (sel : Selection) (id : string) : Z :=
  default 0%Z (emissive sel !! id).

(** Truthiness of a string: every string but the empty one. *)
Definition truthyString (x : string) : bool := negb (String.eqb x "").

(** How a call ends. *)
Inductive Completion := Completed | TypeError.

(** What the guard of the deselect step finds: the previous selection
    and the value of [this.machines[previous]], when the previous
    selection is truthy. *)
Definition previousSelection (s : Store) (sel : Selection)
    : option (string * Property Machine) :=
  match selectedMachine sel with
  | Some previous =>
      if truthyString previous
      then Some (previous, getProperty (machines s) previous)
      else None
  | None => None
  end.

(** [selectMachine].  A value inherited under the previous or the new id
    is truthy and has no [body]: reading [body.material] of it throws, at
    the deselect step before anything is written, or at the highlight
    step after [this.selectedMachine] has been assigned. *)
Definition selectMachine (machineId : string) (s : Store) (sel : Selection)
    : Selection * Completion :=
  match previousSelection s sel with
  | Some (_, Inherited) => (sel, TypeError)
  | found =>
      let deselected :=
        match found with
        | Some (previous, Own _) => <[previous := 0x000000%Z]> (emissive sel)
        | _ => emissive sel
        end in
      match getProperty (machines s) machineId with
      | Own _ =>
          ({| selectedMachine := Some machineId;
              emissive := <[machineId := 0x666666%Z]> deselected |},
           Completed)
      | Inherited =>
          ({| selectedMachine := Some machineId; emissive := deselected |},
           TypeError)
      | Absent =>
          ({| selectedMachine := Some machineId; emissive := deselected |},
           Completed)
      end
  end.

(** A sequence of clicks, oldest first; each click is a call of its own,
    so a call that throws does not stop the later ones. *)
Definition selectAll (ids : list string) (s : Store) (sel : Selection)
    : Selection :=
  fold_left (fun acc id => fst (selectMachine id s acc)) ids sel.

(** Exactly the selected machine, if it is stored, is highlighted. *)
Definition highlightMatches (s : Store) (sel : Selection) : Prop :=
  ∀ id : string,
    emissiveOf sel id
    = if decide (selectedMachine sel = Some id ∧ is_Some (machines s !! id))
      then 0x666666%Z else 0x000000%Z.

(** The previous selection, if any, finds no inherited value. *)
Definition selectionSound (s : Store) (sel : Selection) : Prop :=
  ∀ previous, selectedMachine sel = Some previous →
    getProperty (machines s) previous ≠ Inherited.

End Selecting.

(** * Properties *)

(** ** Line-status aggregation *)

Module AggregationFacts.
Import Factory.

Lemma includes_iff (x : string) (l : list string) :
  existsb (String.eqb x) l = true ↔ x ∈ l.
Proof.
  rewrite existsb_exists, list_elem_of_In. split.
  - intros (y & Hy & Heq). apply String.eqb_eq in Heq. by subst.
  - intros Hx. exists x. split; [done | apply String.eqb_refl].
Qed.

Lemma every_running_iff (l : list string) :
  forallb (fun s => String.eqb s "running") l = true
  ↔ Forall (fun s => s = "running") l.
Proof.
  rewrite forallb_forall, Forall_forall. split; intros H s Hs.
  - apply String.eqb_eq, H. by apply list_elem_of_In.
  - apply String.eqb_eq, H. by apply list_elem_of_In.
Qed.

Lemma halting_member_iff (l : list string) :
  existsb (String.eqb "offline") l || existsb (String.eqb "maintenance") l = true
  ↔ Exists (fun s => s = "offline" ∨ s = "maintenance") l.
Proof.
  rewrite orb_true_iff, !includes_iff, Exists_exists. split.
  - intros [H | H]; eauto.
  - intros (s & Hs & [-> | ->]); auto.
Qed.

Lemma aggregate_spec (statuses : list string) :
  aggregate statuses = spec_line_status statuses.
Proof.
  unfold aggregate, spec_line_status.
  destruct (existsb (String.eqb "offline") statuses
            || existsb (String.eqb "maintenance") statuses) eqn:Hstop.
  - apply halting_member_iff in Hstop. by rewrite decide_True.
  - rewrite decide_False.
    2: { intros H. apply halting_member_iff in H. congruence. }
    destruct (forallb _ statuses) eqn:Hrun.
    + apply every_running_iff in Hrun. by rewrite decide_True.
    + rewrite decide_False; [done |].
      intros H. apply every_running_iff in H. congruence.
Qed.

(** C1: [calculateLineStatus] is the three-rule function of the
    specification: 'stopped' when some member status is 'offline' or
    'maintenance', otherwise 'running' when every member status is
    'running', otherwise 'warning'. *)
Theorem C1_calculateLineStatus_is_spec_rule
    (machinesConfig : list MachineConfig) :
  calculateLineStatus machinesConfig
  = spec_line_status (map cfg_status machinesConfig).
Proof. apply aggregate_spec. Qed.

(** The three rules, one by one. *)
Lemma aggregate_stopped (statuses : list string) :
  "offline" ∈ statuses ∨ "maintenance" ∈ statuses →
  aggregate statuses = "stopped".
Proof.
  intros H. unfold aggregate.
  assert (existsb (String.eqb "offline") statuses
          || existsb (String.eqb "maintenance") statuses = true) as ->; [|done].
  apply orb_true_iff. by rewrite !includes_iff.
Qed.

Lemma aggregate_running (statuses : list string) :
  Forall (fun s => s = "running") statuses →
  aggregate statuses = "running".
Proof.
  intros H. rewrite aggregate_spec. unfold spec_line_status.
  rewrite decide_False, decide_True; [done | done |].
  intros Hex. apply Exists_exists in Hex as (s & Hs & Hhalt).
  rewrite Forall_forall in H. specialize (H s Hs).
  destruct Hhalt; congruence.
Qed.

Lemma aggregate_warning (statuses : list string) :
  "offline" ∉ statuses → "maintenance" ∉ statuses →
  ¬ Forall (fun s => s = "running") statuses →
  aggregate statuses = "warning".
Proof.
  intros Hoff Hmnt Hrun. rewrite aggregate_spec. unfold spec_line_status.
  rewrite decide_False, decide_False; [done | done |].
  intros Hex. apply Exists_exists in Hex as (s & Hs & [-> | ->]); done.
Qed.

Example line_A_stopped :
  aggregate ["running"; "running"; "maintenance"; "stopped"] = "stopped".
Proof. reflexivity. Qed.

Example line_C_running :
  aggregate ["running"; "running"; "running"; "running"] = "running".
Proof. reflexivity. Qed.

Example line_mixed_warning :
  aggregate ["running"; "stopped"] = "warning".
Proof. reflexivity. Qed.

End AggregationFacts.

(** ** Construction of a production line *)

Module ConstructionFacts.
Import Factory.

Section Line.
Variables (lineId lineStatus : string) (zPosition : Z).
Variable ent : nat → Entropy.

Lemma createMachines_lines cfgs : ∀ index s,
  productionLines (createMachines lineId lineStatus zPosition ent index cfgs s)
  = productionLines s.
Proof.
  induction cfgs as [| config rest IH]; intros index s; simpl; [done |].
  by rewrite IH.
Qed.

Lemma createMachines_other cfgs : ∀ index s (id : string),
  id ∉ map cfg_id cfgs →
  machines (createMachines lineId lineStatus zPosition ent index cfgs s) !! id
  = machines s !! id.
Proof.
  induction cfgs as [| config rest IH]; intros index s id Hid; simpl; [done |].
  simpl in Hid. apply not_elem_of_cons in Hid as [Hne Hrest].
  rewrite IH by done. simpl. by rewrite lookup_insert_ne.
Qed.

Lemma createMachines_member cfgs : ∀ index s config,
  NoDup (map cfg_id cfgs) →
  config ∈ cfgs →
  ∃ m, machines (createMachines lineId lineStatus zPosition ent index cfgs s)
         !! cfg_id config = Some m
       ∧ status m = machineStatusOf lineStatus config
       ∧ machine_name m = cfg_name config.
Proof.
  induction cfgs as [| c rest IH]; intros index s config Hnd Hin; simpl.
  - by apply elem_of_nil in Hin.
  - simpl in Hnd. apply NoDup_cons in Hnd as [Hfresh Hnd].
    apply elem_of_cons in Hin as [-> | Hin].
    + rewrite createMachines_other by done. simpl.
      rewrite lookup_insert_eq. eexists. split; [done |]. by split.
    + by apply IH.
Qed.

End Line.

Lemma createProductionLine_line lineId lineName cfg z color ent s :
  productionLines (createProductionLine lineId lineName cfg z color ent s)
    !! lineId
  = Some {| line_id := lineId; line_name := lineName;
            line_status := calculateLineStatus cfg;
            line_machines := map cfg_id cfg;
            line_color := color; line_position := z |}.
Proof. unfold createProductionLine. simpl. by rewrite lookup_insert_eq. Qed.

(** C10: at construction of a line whose member ids are distinct, every
    member machine is stored with status 'stopped' when the status
    aggregated from the configured statuses is 'stopped', and with
    exactly its configured status otherwise. *)
Theorem C10_construction_status_cascade
    (lineId lineName : string) (machinesConfig : list MachineConfig)
    (zPosition : Z) (lineColor : string) (ent : nat → Entropy) (s : Store)
    (config : MachineConfig) :
  NoDup (map cfg_id machinesConfig) →
  config ∈ machinesConfig →
  ∃ m, machines (createProductionLine lineId lineName machinesConfig
                   zPosition lineColor ent s) !! cfg_id config = Some m
       ∧ status m =
           if String.eqb (calculateLineStatus machinesConfig) "stopped"
           then "stopped"
           else cfg_status config.
Proof.
  intros Hnd Hin. unfold createProductionLine. simpl.
  destruct (createMachines_member lineId (calculateLineStatus machinesConfig)
              zPosition ent machinesConfig 0 s config Hnd Hin)
    as (m & Hm & Hst & _).
  exists m. split; [done |]. by rewrite Hst.
Qed.

Lemma C10_construction_status_cascade_witness :
  (∃ m, machines Demo.lineA_store !! "MACHINE_A1" = Some m
        ∧ status m = "stopped")
  ∧ (∃ m, machines Demo.lineC_store !! "MACHINE_C3" = Some m
          ∧ status m = "running").
Proof.
  split.
  - apply (C10_construction_status_cascade "A" "Automotive Parts"
             Demo.lineA_config (-6) "red" Demo.midEntropy emptyStore
             (Demo.config "MACHINE_A1" "Stamping Press A1" "stamping" "running")).
    + apply (bool_decide_unpack _). vm_compute. exact I.
    + apply elem_of_cons. by left.
  - apply (C10_construction_status_cascade "C" "Consumer Goods"
             Demo.lineC_config 6 "green" Demo.midEntropy emptyStore
             (Demo.config "MACHINE_C3" "Trimming Unit C3" "trimming" "running")).
    + apply (bool_decide_unpack _). vm_compute. exact I.
    + do 2 (apply elem_of_cons; right). apply elem_of_cons. by left.
Defined.

(** The whole of line A is stored as stopped although only A3 was
    configured for maintenance. *)
Example lineA_all_stopped :
  memberStatuses Demo.lineA_store
    {| line_id := "A"; line_name := "Automotive Parts";
       line_status := "stopped";
       line_machines := map cfg_id Demo.lineA_config;
       line_color := "red"; line_position := -6 |}
  = ["stopped"; "stopped"; "stopped"; "stopped"].
Proof. vm_compute. reflexivity. Qed.

End ConstructionFacts.

(** ** Realtime events *)

Module EventFacts.
Import Factory Demo ConstructionFacts.

Lemma or_else_missing (b : Q) : JS.or_else None b = b.
Proof. reflexivity. Qed.

Lemma or_else_truthy (v b : Q) : ¬ (v == 0)%Q → JS.or_else (Some v) b = v.
Proof.
  intros Hv. unfold JS.or_else, JS.truthy.
  destruct (Qeq_bool v 0) eqn:E; [| done].
  by apply Qeq_bool_iff in E.
Qed.

Lemma or_else_zero (v b : Q) : (v == 0)%Q → JS.or_else (Some v) b = b.
Proof.
  intros Hv. unfold JS.or_else, JS.truthy.
  apply Qeq_bool_iff in Hv. by rewrite Hv.
Qed.

Lemma updateMachineVisualStatus_lines id st s :
  productionLines (fst (updateMachineVisualStatus id st s)) = productionLines s.
Proof. unfold updateMachineVisualStatus. by destruct (machines s !! id). Qed.

Lemma handleRealtimeData_lines data s :
  productionLines (fst (handleRealtimeData data s)) = productionLines s.
Proof.
  unfold handleRealtimeData.
  destruct (String.eqb (ev_type data) "machineStatus");
    [destruct (machines s !! machineId data) as [machine |] |].
  - match goal with
    | |- context [updateMachineVisualStatus ?i ?t ?x] =>
        pose proof (updateMachineVisualStatus_lines i t x) as H;
        destruct (updateMachineVisualStatus i t x) as [s2 fx]
    end.
    simpl in H. by destruct (String.eqb (ev_type data) "alert").
  - by destruct (String.eqb (ev_type data) "alert").
  - by destruct (String.eqb (ev_type data) "alert").
Qed.

Lemma handleAll_lines evs : ∀ s,
  productionLines (handleAll evs s) = productionLines s.
Proof.
  unfold handleAll.
  induction evs as [| data rest IH]; intros s; simpl; [done |].
  by rewrite IH, handleRealtimeData_lines.
Qed.

(** What a [machineStatus] frame does to the machine it names. *)
Lemma handleRealtimeData_known data s machine :
  ev_type data = "machineStatus" →
  machines s !! machineId data = Some machine →
  ∃ machine',
    machines (fst (handleRealtimeData data s)) !! machineId data = Some machine'
    ∧ status machine' = ev_status data
    ∧ temperature machine' = JS.or_else (ev_temperature data) (temperature machine)
    ∧ vibration machine' = JS.or_else (ev_vibration data) (vibration machine)
    ∧ efficiency machine' = JS.or_else (ev_efficiency data) (efficiency machine).
Proof.
  intros Hty Hm. unfold handleRealtimeData, updateMachineVisualStatus.
  rewrite Hty, Hm. simpl. rewrite lookup_insert_eq. simpl.
  eexists. split; [apply lookup_insert_eq |]. by simpl.
Qed.

(** Machines other than the one named keep everything. *)
Lemma handleRealtimeData_others data s (id : string) :
  id ≠ machineId data →
  machines (fst (handleRealtimeData data s)) !! id = machines s !! id.
Proof.
  intros Hne. unfold handleRealtimeData, updateMachineVisualStatus.
  destruct (String.eqb (ev_type data) "machineStatus");
    [destruct (machines s !! machineId data) as [machine |] |].
  - simpl. rewrite lookup_insert_eq.
    destruct (String.eqb (ev_type data) "alert"); simpl;
      by rewrite !lookup_insert_ne.
  - by destruct (String.eqb (ev_type data) "alert").
  - by destruct (String.eqb (ev_type data) "alert").
Qed.

(** A frame that names a known machine and carries non-zero metrics
    overwrites them, and a frame without a metric keeps the stored one. *)
Lemma handleRealtimeData_partial_update data s machine :
  ev_type data = "machineStatus" →
  machines s !! machineId data = Some machine →
  ∃ machine',
    machines (fst (handleRealtimeData data s)) !! machineId data = Some machine'
    ∧ status machine' = ev_status data
    ∧ (∀ v, ev_temperature data = Some v → ¬ (v == 0)%Q → temperature machine' = v)
    ∧ (ev_temperature data = None → temperature machine' = temperature machine)
    ∧ (∀ v, ev_vibration data = Some v → ¬ (v == 0)%Q → vibration machine' = v)
    ∧ (ev_vibration data = None → vibration machine' = vibration machine)
    ∧ (∀ v, ev_efficiency data = Some v → ¬ (v == 0)%Q → efficiency machine' = v)
    ∧ (ev_efficiency data = None → efficiency machine' = efficiency machine).
Proof.
  intros Hty Hm.
  destruct (handleRealtimeData_known data s machine Hty Hm)
    as (m' & Hm' & Hst & Ht & Hv & He).
  exists m'. rewrite Ht, Hv, He.
  repeat split; try done;
    try (intros v -> Hnz; by apply or_else_truthy);
    try (by intros ->).
Qed.

Example lineC_store_C1 : machines lineC_store !! "MACHINE_C1" = Some machineC1.
Proof. vm_compute. reflexivity. Qed.

Example mildFrame_stored :
  machines (fst (handleRealtimeData mildFrame lineC_store)) !! "MACHINE_C1"
  = Some mildC1.
Proof. vm_compute. reflexivity. Qed.

Example overheatFrame_stored :
  machines (fst (handleRealtimeData overheatFrame lineC_store)) !! "MACHINE_C1"
  = Some overheatedC1.
Proof. vm_compute. reflexivity. Qed.

(** C3 (failing input): the frame [haltedFrame] names the stored machine
    MACHINE_C1 and carries [vibration: 0] and [efficiency: 0]; the handler
    overwrites the status but leaves both stored metrics at their previous
    values (5 Hz and 85 %), because [0 || previous] is [previous]. *)
Theorem C3_zero_metric_is_not_written :
  let before := machines lineC_store !! "MACHINE_C1" in
  let after := machines (fst (handleRealtimeData haltedFrame lineC_store))
                 !! "MACHINE_C1" in
  ev_vibration haltedFrame = Some 0%Q
  ∧ ev_efficiency haltedFrame = Some 0%Q
  ∧ status <$> after = Some "offline"
  ∧ vibration <$> after = vibration <$> before
  ∧ vibration <$> before = Some (10 # 2)
  ∧ efficiency <$> after = efficiency <$> before
  ∧ efficiency <$> before = Some (170 # 2).
Proof. vm_compute. repeat split. Qed.

(** C2 (counterexample): line C is built with four running machines and
    status 'running'; after the frame that takes MACHINE_C1 offline the
    line still stores 'running' while the rule evaluated on the current
    member statuses gives 'stopped'. *)
Lemma C2_line_status_goes_stale :
  ∃ l,
    productionLines lineC_store !! "C" = Some l
    ∧ lineFresh lineC_store l
    ∧ let s' := handleAll [statusFrame "MACHINE_C1" "offline"] lineC_store in
      productionLines s' !! "C" = Some l
      ∧ line_status l = "running"
      ∧ aggregate (memberStatuses s' l) = "stopped"
      ∧ ¬ lineFresh s' l.
Proof.
  eexists. split; [apply createProductionLine_line |].
  split; [reflexivity |]. cbv zeta.
  split; [rewrite handleAll_lines; apply createProductionLine_line |].
  split; [reflexivity |].
  split; [vm_compute; reflexivity |].
  unfold lineFresh. vm_compute. discriminate.
Qed.

(** C2 (amended): whatever frames are applied after a line is built, the
    line's stored status stays the aggregation rule evaluated on the
    statuses its members were configured with; frames update machines and
    never a line. *)
Theorem C2_line_status_fixed_at_construction
    (lineId lineName : string) (machinesConfig : list MachineConfig)
    (zPosition : Z) (lineColor : string) (ent : nat → Entropy)
    (s : Store) (evs : list Event) :
  let built := createProductionLine lineId lineName machinesConfig
                 zPosition lineColor ent s in
  productionLines (handleAll evs built) = productionLines built
  ∧ ∃ l, productionLines (handleAll evs built) !! lineId = Some l
         ∧ line_status l = calculateLineStatus machinesConfig
         ∧ line_machines l = map cfg_id machinesConfig.
Proof.
  cbv zeta. rewrite handleAll_lines. split; [done |].
  eexists. split; [apply createProductionLine_line |]. by split.
Qed.

End EventFacts.

(** ** Predictive maintenance *)

Module PredictiveFacts.
Import Factory Demo Predictive.

Local Open Scope Q_scope.

Lemma max_cases (a b : Q) :
  (a <= b ∧ JS.max a b = b) ∨ (b < a ∧ JS.max a b = a).
Proof.
  unfold JS.max. destruct (Qle_bool a b) eqn:E.
  - left. split; [by apply Qle_bool_iff | done].
  - right. split; [| done]. apply Qnot_le_lt. intros H.
    apply Qle_bool_iff in H. congruence.
Qed.

Lemma min_cases (a b : Q) :
  (a <= b ∧ JS.min a b = a) ∨ (b < a ∧ JS.min a b = b).
Proof.
  unfold JS.min. destruct (Qle_bool a b) eqn:E.
  - left. split; [by apply Qle_bool_iff | done].
  - right. split; [| done]. apply Qnot_le_lt. intros H.
    apply Qle_bool_iff in H. congruence.
Qed.

Ltac js_cases :=
  repeat match goal with
    | |- context [JS.max ?a ?b] =>
        let H := fresh "Hmax" in let E := fresh "Emax" in
        destruct (max_cases a b) as [[H E] | [H E]]; rewrite E in *; clear E
    | |- context [JS.min ?a ?b] =>
        let H := fresh "Hmin" in let E := fresh "Emin" in
        destruct (min_cases a b) as [[H E] | [H E]]; rewrite E in *; clear E
    end.

Ltac const_div :=
  unfold Qdiv in *;
  change (/ 25) with (1 # 25) in *;
  change (/ 10) with (1 # 10) in *;
  change (/ 20) with (1 # 20) in *;
  change (/ 4) with (1 # 4) in *;
  change (/ month_ms) with (1 # 2592000000) in *.

Lemma tempRisk_mono (f1 f2 : Factors) :
  f_temperature f1 <= f_temperature f2 → tempRisk f1 <= tempRisk f2.
Proof. intros H. unfold tempRisk. js_cases; const_div; lra. Qed.

Lemma vibrationRisk_mono (f1 f2 : Factors) :
  f_vibration f1 <= f_vibration f2 → vibrationRisk f1 <= vibrationRisk f2.
Proof. intros H. unfold vibrationRisk. const_div. lra. Qed.

Lemma efficiencyRisk_antimono (f1 f2 : Factors) :
  f_efficiency f2 <= f_efficiency f1 → efficiencyRisk f1 <= efficiencyRisk f2.
Proof. intros H. unfold efficiencyRisk. js_cases; const_div; lra. Qed.

Lemma timeRisk_mono (f1 f2 : Factors) :
  (runTime f1 <= runTime f2)%Z → timeRisk f1 <= timeRisk f2.
Proof.
  intros H. unfold timeRisk. rewrite Zle_Qle in H.
  js_cases; const_div; lra.
Qed.

(** The bounds that hold for every machine: the two [Math.max(0, _)]
    components are never negative and the [Math.min(1, _)] component never
    exceeds one. *)
Lemma one_sided_bounds (f : Factors) :
  0 <= tempRisk f ∧ 0 <= efficiencyRisk f ∧ timeRisk f <= 1.
Proof.
  unfold tempRisk, efficiencyRisk, timeRisk.
  repeat split; js_cases; lra.
Qed.

(** Inside the ranges [createMachine] draws from (and a little beyond)
    every component, and hence the mean, is in [0, 1]. *)
Lemma risk_bounded_in_range (f : Factors) :
  f_temperature f <= 100 →
  0 <= f_vibration f <= 10 →
  65 <= f_efficiency f →
  (0 <= runTime f)%Z →
  (0 <= tempRisk f <= 1) ∧ (0 <= vibrationRisk f <= 1)
  ∧ (0 <= efficiencyRisk f <= 1) ∧ (0 <= timeRisk f <= 1)
  ∧ (0 <= overallRisk f <= 1).
Proof.
  intros Ht [Hv0 Hv1] He Hr. rewrite Zle_Qle in Hr.
  change (inject_Z 0) with 0 in Hr.
  assert (0 <= tempRisk f <= 1) as HT
    by (unfold tempRisk; js_cases; const_div; lra).
  assert (0 <= vibrationRisk f <= 1) as HV
    by (unfold vibrationRisk; const_div; lra).
  assert (0 <= efficiencyRisk f <= 1) as HE
    by (unfold efficiencyRisk; js_cases; const_div; lra).
  assert (0 <= timeRisk f <= 1) as HR
    by (unfold timeRisk; js_cases; const_div; lra).
  destruct HT, HV, HE, HR.
  repeat split; try assumption; unfold overallRisk; const_div; lra.
Qed.

(** C4 (failing input): after the frame [overheatFrame] (temperature 200)
    has been applied to MACHINE_C1, the assessment at clock reading
    1.7e12 has a temperature component of 5 and an overall risk of 3/2,
    both above 1, although the code announces a score in 0-1. *)
Theorem C4_risk_exceeds_one :
  let s := fst (handleRealtimeData overheatFrame lineC_store) in
  ∃ a, calculatePredictiveMaintenance "MACHINE_C1"
         1700000000000 1700000000000 (1 # 2) s = Some a
       ∧ tempRisk (factors a) == 5
       ∧ riskScore a == overallRisk (factors a)
       ∧ riskScore a == 3 # 2
       ∧ ¬ (tempRisk (factors a) <= 1)
       ∧ ¬ (riskScore a <= 1).
Proof.
  cbv zeta. eexists. split; [vm_compute; reflexivity |].
  repeat split; try (vm_compute; reflexivity);
    intros H; vm_compute in H; by apply H.
Qed.

(** C6: the overall risk is monotone in its inputs.  Between two
    snapshots, a temperature that is not lower, a vibration that is not
    lower, a time since the last maintenance that is not shorter and an
    efficiency that is not higher never give a lower overall risk; taking
    the snapshots equal in all inputs but one gives the four one-input
    statements. *)
Theorem C6_overallRisk_monotone
    (m1 m2 : Machine) (now1 now2 : Z) (rnd1 rnd2 : Q) :
  temperature m1 <= temperature m2 →
  vibration m1 <= vibration m2 →
  efficiency m2 <= efficiency m1 →
  (now1 - lastMaintenance m1 <= now2 - lastMaintenance m2)%Z →
  overallRisk (factorsOf m1 now1 rnd1) <= overallRisk (factorsOf m2 now2 rnd2).
Proof.
  intros Ht Hv He Hr.
  pose proof (tempRisk_mono (factorsOf m1 now1 rnd1) (factorsOf m2 now2 rnd2) Ht).
  pose proof (vibrationRisk_mono (factorsOf m1 now1 rnd1) (factorsOf m2 now2 rnd2) Hv).
  pose proof (efficiencyRisk_antimono (factorsOf m1 now1 rnd1) (factorsOf m2 now2 rnd2) He).
  pose proof (timeRisk_mono (factorsOf m1 now1 rnd1) (factorsOf m2 now2 rnd2) Hr).
  unfold overallRisk. const_div. lra.
Qed.

Lemma C6_overallRisk_monotone_witness :
  overallRisk (factorsOf mildC1 1698704000000 (1 # 2))
  <= overallRisk (factorsOf overheatedC1 1700000000000 (1 # 3)).
Proof.
  apply C6_overallRisk_monotone; vm_compute; discriminate.
Defined.

Lemma round_nearest (x : Q) :
  inject_Z (JS.round x) - (1 # 2) <= x ∧ x < inject_Z (JS.round x) + (1 # 2).
Proof.
  unfold JS.round.
  pose proof (Qfloor_le (x + (1 # 2))) as Hlo.
  pose proof (Qlt_floor (x + (1 # 2))) as Hhi.
  rewrite inject_Z_plus in Hhi. change (inject_Z 1) with 1 in Hhi.
  split; lra.
Qed.

Lemma trunc_near (x : Q) :
  - (1) < x - inject_Z (JS.trunc x) ∧ x - inject_Z (JS.trunc x) < 1.
Proof.
  unfold JS.trunc. destruct (Qle_bool 0 x).
  - pose proof (Qfloor_le x) as Hlo. pose proof (Qlt_floor x) as Hhi.
    rewrite inject_Z_plus in Hhi. change (inject_Z 1) with 1 in Hhi.
    split; lra.
  - pose proof (Qle_ceiling x) as Hhi. pose proof (Qceiling_lt x) as Hlo.
    unfold Z.sub in Hlo. rewrite inject_Z_plus in Hlo.
    rewrite inject_Z_opp in Hlo. change (inject_Z 1) with 1 in Hlo.
    split; lra.
Qed.

(** C5 (counterexample): for MACHINE_C1 after [mildFrame], assessed at the
    instant of its last maintenance, the overall risk is 1/10 and
    max(0, 14 - risk * 14) is 12.6, but the returned daysToMaintenance is
    13; the predicted date is the clock reading plus 12.6 days, not plus
    the 13 days that are returned. *)
Lemma C5_returned_days_are_rounded :
  let s := fst (handleRealtimeData mildFrame lineC_store) in
  ∃ a, calculatePredictiveMaintenance "MACHINE_C1"
         1698704000000 1698704000000 (1 # 2) s = Some a
       ∧ riskScore a == 1 # 10
       ∧ JS.max 0 (14 - riskScore a * 14) == 126 # 10
       ∧ daysToMaintenance a = 13%Z
       ∧ ¬ (inject_Z (daysToMaintenance a) == JS.max 0 (14 - riskScore a * 14))
       ∧ predictedMaintenanceDate a = (1698704000000 + 1088640000)%Z
       ∧ predictedMaintenanceDate a ≠ (1698704000000 + 13 * 86400000)%Z.
Proof.
  cbv zeta. eexists. split; [vm_compute; reflexivity |].
  repeat split; try (vm_compute; reflexivity);
    intros H; vm_compute in H; discriminate H.
Qed.

End PredictiveFacts.

(** ** Telemetry channel *)

Module ChannelFacts.
Import Channel.

Lemma close_length i ss : length (close i ss) = length ss.
Proof.
  unfold close. destruct (ss !! i) as [[] |]; by rewrite ?length_insert.
Qed.

Lemma dispose_timers st : timers (dispose st) = timers st.
Proof. reflexivity. Qed.

Lemma dispose_connects st : connects (dispose st) = connects st.
Proof.
  unfold connects, dispose. simpl.
  destruct (socket st); [apply close_length | done].
Qed.

(** C8 (counterexample): a connected channel is torn down; the close
    event that [socket.close()] brings about runs [onclose], which arms a
    reconnect, and when that timer fires a second [WebSocket] is
    constructed.  A reconnect that was pending before the teardown is still
    pending after it. *)
Lemma C8_teardown_is_not_final :
  ¬ teardownIsFinal
  ∧ (∃ st', run [Close 0%nat; Timer 0%nat true] (dispose connected) = Some st'
            ∧ connects (dispose connected) = 1%nat
            ∧ connects st' = 2%nat)
  ∧ timers (dispose Demo.reconnectPending) = [5000%Z].
Proof.
  split; [| split].
  - intros H.
    destruct (H connected [Close 0%nat; Timer 0%nat true] _ eq_refl) as [_ Hc].
    vm_compute in Hc. discriminate Hc.
  - eexists. split; [reflexivity |]. split; reflexivity.
  - reflexivity.
Qed.

(** C8 (amended): explicit teardown closes the current socket and cancels
    nothing: every reconnect timer pending at [dispose] stays pending, the
    close event of the torn-down socket arms one more reconnect 5000 ms
    later, and when that timer fires [connect] is called again. *)
Theorem C8_teardown_keeps_reconnecting (st : State) (i : nat) :
  socket st = Some i →
  sockets st !! i = Some OPEN ∨ sockets st !! i = Some CONNECTING →
  timers (dispose st) = timers st
  ∧ sockets (dispose st) !! i = Some CLOSING
  ∧ ∃ st1 st2,
      step (dispose st) (Close i) = Some st1
      ∧ timers st1 = (timers st ++ [5000%Z])%list
      ∧ step st1 (Timer (length (timers st)) true) = Some st2
      ∧ timers st2 = timers st
      ∧ connects st2 = S (connects st).
Proof.
  intros Hsock Hstate.
  assert (i < length (sockets st)) as Hlt
    by (destruct Hstate as [H | H]; by apply lookup_lt_Some in H).
  assert (sockets (dispose st) = <[i := CLOSING]> (sockets st)) as Hss.
  { unfold dispose, close. simpl. rewrite Hsock.
    by destruct Hstate as [-> | ->]. }
  split; [done |].
  split; [rewrite Hss; by apply list_lookup_insert_eq |].
  eexists. eexists.
  split.
  { unfold step. rewrite Hss, list_lookup_insert_eq by done. reflexivity. }
  split; [reflexivity |].
  split.
  { unfold step, onclose, withSockets. simpl.
    rewrite lookup_app_r by done. rewrite Nat.sub_diag. reflexivity. }
  split.
  - simpl. rewrite delete_middle. by rewrite app_nil_r.
  - unfold connects. simpl. rewrite length_app, !length_insert. simpl. lia.
Qed.

Lemma C8_teardown_keeps_reconnecting_witness :
  timers (dispose connected) = []
  ∧ sockets (dispose connected) !! 0%nat = Some CLOSING
  ∧ ∃ st1 st2,
      step (dispose connected) (Close 0%nat) = Some st1
      ∧ timers st1 = [5000%Z]
      ∧ step st1 (Timer 0%nat true) = Some st2
      ∧ timers st2 = []
      ∧ connects st2 = 2%nat.
Proof.
  apply (C8_teardown_keeps_reconnecting connected 0%nat).
  - reflexivity.
  - left. reflexivity.
Defined.

End ChannelFacts.

(** ** Service worker *)

Module ServiceWorkerFacts.
Import ServiceWorker.

Lemma filter_all {A} (P : A → Prop) `{!∀ x, Decision (P x)} (l : list A) :
  (∀ x, x ∈ l → P x) → filter P l = l.
Proof.
  induction l as [| a l IH]; intros Hall; [done |].
  rewrite filter_cons_True by (apply Hall; by left).
  rewrite IH; [done |]. intros x Hx. apply Hall. by right.
Qed.

Lemma filter_agree {A} (P Q : A → Prop)
    `{!∀ x, Decision (P x), !∀ x, Decision (Q x)} (l : list A) :
  (∀ x, x ∈ l → (P x ↔ Q x)) → filter P l = filter Q l.
Proof.
  induction l as [| a l IH]; intros Hall; [done |].
  assert (filter P l = filter Q l) as Htl
    by (apply IH; intros x Hx; apply Hall; by right).
  destruct (decide (P a)) as [Ha | Ha].
  - rewrite !filter_cons_True; [by rewrite Htl | | done].
    apply Hall; [by left | done].
  - rewrite !filter_cons_False; [done | | done].
    intros Hq. apply Ha, Hall; [by left | done].
Qed.

(** The deletions of [activate], one key at a time. *)
Lemma activate_fold (names : list string) : ∀ acc : CacheStorage,
  fold_left
    (fun acc cacheName =>
       if negb (String.eqb cacheName CACHE_NAME)
       then cachesDelete cacheName acc
       else acc)
    names acc
  = filter (fun p => fst p = CACHE_NAME ∨ fst p ∉ names) acc.
Proof.
  induction names as [| n names IH]; intros acc; cbn [fold_left].
  - symmetry. apply filter_all. intros x _. right. apply not_elem_of_nil.
  - rewrite IH. destruct (String.eqb n CACHE_NAME) eqn:E; cbn [negb].
    + apply String.eqb_eq in E. subst n.
      apply list_filter_iff. intros p. rewrite not_elem_of_cons.
      destruct (decide (fst p = CACHE_NAME)) as [Hp | Hp]; tauto.
    + apply String.eqb_neq in E. unfold cachesDelete.
      rewrite list_filter_filter.
      apply list_filter_iff. intros p. rewrite not_elem_of_cons.
      split.
      * intros [[Hp | Hp] Hn]; [by left | right; by split].
      * intros [Hp | [Hn Hp]]; [| split; [by right | done]].
        split; [by left | congruence].
Qed.

(** [activate] keeps exactly the caches named [CACHE_NAME], in order. *)
Lemma activate_filter (cs : CacheStorage) :
  activate cs = filter (fun p => fst p = CACHE_NAME) cs.
Proof.
  unfold activate. rewrite activate_fold.
  apply filter_agree. intros p Hp. split; [| by left].
  intros [H | H]; [done |]. exfalso. apply H.
  unfold cachesKeys. apply list_elem_of_In, in_map. by apply list_elem_of_In.
Qed.

Lemma lookupCache_Some name (cs : CacheStorage) c :
  lookupCache name cs = Some c → (name, c) ∈ cs.
Proof.
  unfold lookupCache. destruct (find _ cs) as [[n c'] |] eqn:E; [| done].
  intros [= <-]. apply find_some in E as [Hin Heq]. simpl in Heq.
  apply String.eqb_eq in Heq. subst n. by apply list_elem_of_In.
Qed.

Lemma lookupCache_None name (cs : CacheStorage) :
  lookupCache name cs = None → ∀ p, p ∈ cs → fst p ≠ name.
Proof.
  unfold lookupCache. destruct (find _ cs) eqn:E; [done |].
  intros _ p Hp. apply list_elem_of_In in Hp.
  pose proof (find_none _ _ E p Hp) as Hf. simpl in Hf.
  by apply String.eqb_neq in Hf.
Qed.

Lemma cachesOpen_has name (cs : CacheStorage) :
  ∃ c, (name, c) ∈ cachesOpen name cs.
Proof.
  unfold cachesOpen. destruct (lookupCache name cs) as [c |] eqn:E.
  - exists c. by apply lookupCache_Some.
  - exists ∅. apply elem_of_app. right. by left.
Qed.

Lemma update_elem name f (cs : CacheStorage) p :
  p ∈ update name f cs →
  ∃ q, q ∈ cs ∧ fst p = fst q
       ∧ (fst q = name → snd p = f (snd q)).
Proof.
  unfold update. intros Hp. apply list_elem_of_In, in_map_iff in Hp
    as (q & Hq & Hin). exists q. split; [by apply list_elem_of_In |].
  destruct (String.eqb (fst q) name) eqn:E; subst p; simpl.
  - by split.
  - apply String.eqb_neq in E. by split.
Qed.

Lemma update_has name f (cs : CacheStorage) c :
  (name, c) ∈ cs → (name, f c) ∈ update name f cs.
Proof.
  intros H. unfold update. apply list_elem_of_In, in_map_iff.
  exists (name, c). simpl. rewrite String.eqb_refl.
  split; [done | by apply list_elem_of_In].
Qed.

Lemma cachesMatch_every u r (cs : CacheStorage) :
  cs ≠ [] → (∀ p, p ∈ cs → snd p !! u = Some r) → cachesMatch u cs = Some r.
Proof.
  destruct cs as [| [n c] rest]; [done |]. intros _ H. simpl.
  specialize (H (n, c)). simpl in H. rewrite H; [done | by left].
Qed.

Lemma putAll_other entries : ∀ (c : gmap string Response) (k : string),
  k ∉ map fst entries → putAll entries c !! k = c !! k.
Proof.
  unfold putAll. induction entries as [| e rest IH]; intros c k Hk; [done |].
  simpl in *. apply not_elem_of_cons in Hk as [Hne Hk].
  rewrite IH by done. by rewrite lookup_insert_ne.
Qed.

Lemma putAll_fetched (network : Network) entries :
  ∀ (c : gmap string Response) (k : string),
  (∀ e, e ∈ entries → network (fst e) = Some (snd e)) →
  k ∈ map fst entries →
  putAll entries c !! k = network k.
Proof.
  induction entries as [| e rest IH]; intros c k Hnet Hk.
  - by apply elem_of_nil in Hk.
  - destruct (decide (k ∈ map fst rest)) as [Hin | Hout].
    + unfold putAll. simpl. apply IH; [| done].
      intros e' He'. apply Hnet. by right.
    + simpl in Hk. apply elem_of_cons in Hk as [-> | Hk]; [| done].
      unfold putAll. simpl.
      change (fold_left _ rest ?x) with (putAll rest x).
      rewrite putAll_other by done. rewrite lookup_insert_eq.
      symmetry. apply Hnet. by left.
Qed.

Lemma fetchAll_entries (network : Network) urls : ∀ entries,
  fetchAll network urls = Some entries →
  map fst entries = urls
  ∧ ∀ e, e ∈ entries → network (fst e) = Some (snd e) ∧ ok (snd e) = true.
Proof.
  induction urls as [| u rest IH]; intros entries; simpl.
  - intros [= <-]. split; [done |]. intros e He. by apply elem_of_nil in He.
  - destruct (network u) as [r |] eqn:Hu; [| done].
    destruct (addAllAccepts r) eqn:Hacc; [| done].
    assert (ok r = true) as Hok
      by (unfold addAllAccepts in Hacc; by apply andb_true_iff in Hacc as [? _]).
    destruct (fetchAll network rest) as [tl |]; [| done].
    simpl. intros [= <-]. destruct (IH tl eq_refl) as [Hfst Hall].
    split; [simpl; by rewrite Hfst |].
    intros e He. apply elem_of_cons in He as [-> | He]; [done | by apply Hall].
Qed.

(** After a successful [install], every cache named [CACHE_NAME] holds
    each manifest URL with the response fetched for it. *)
Lemma install_entries resolve (network : Network) (cs cs' : CacheStorage) :
  install resolve network cs = (cs', true) →
  (∃ c, (CACHE_NAME, c) ∈ cs')
  ∧ ∀ u, u ∈ urlsToCache →
      ∃ r, network (resolve u) = Some r
           ∧ ∀ p, p ∈ cs' → fst p = CACHE_NAME → snd p !! resolve u = Some r.
Proof.
  unfold install.
  destruct (fetchAll network (map resolve urlsToCache)) as [entries |] eqn:Hf;
    [| done].
  intros [= <-]. apply fetchAll_entries in Hf as [Hfst Hall]. split.
  - destruct (cachesOpen_has CACHE_NAME cs) as [c Hc].
    eexists. by apply update_has.
  - intros u Hu.
    assert (resolve u ∈ map fst entries) as Hin.
    { rewrite Hfst. apply list_elem_of_In, in_map. by apply list_elem_of_In. }
    assert (putAll entries ∅ !! resolve u = network (resolve u)) as Hput.
    { apply putAll_fetched; [| done]. intros e He. by apply Hall. }
    destruct (network (resolve u)) as [r |] eqn:Hr.
    + exists r. split; [done |]. intros p Hp Hname.
      apply update_elem in Hp as (q & _ & Hpq & Hsnd).
      rewrite Hsnd by congruence.
      rewrite <- Hr. apply putAll_fetched; [| done].
      intros e He. by apply Hall.
    + exfalso. apply list_elem_of_In, in_map_iff in Hin as (e & He & Hin).
      apply list_elem_of_In, Hall in Hin as [Hnet _]. congruence.
Qed.

(** C7: when [install] has succeeded and [activate] has run, the only
    cache name left is [CACHE_NAME] (no cache of another epoch can be
    opened by name), and every manifest resource is held by the
    [CACHE_NAME] cache with the response fetched at install, so that a GET
    request for it is answered from the cache whatever the network does. *)
Theorem C7_activation_leaves_only_new_epoch
    (resolve : string → string) (network later : Network)
    (cs cs' : CacheStorage) :
  install resolve network cs = (cs', true) →
  (∀ name, name ∈ cachesKeys (activate cs') → name = CACHE_NAME)
  ∧ (∀ name, name ≠ CACHE_NAME → lookupCache name (activate cs') = None)
  ∧ ∀ u, u ∈ urlsToCache →
      ∃ r c,
        network (resolve u) = Some r
        ∧ lookupCache CACHE_NAME (activate cs') = Some c
        ∧ c !! resolve u = Some r
        ∧ ∀ request,
            method request = "GET" →
            url request = resolve u →
            JS.startsWith "http" (url request) = true →
            onFetch later request (activate cs')
            = (activate cs', FromCache r).
Proof.
  intros Hinst. apply install_entries in Hinst as [[c0 Hc0] Hall].
  rewrite activate_filter.
  assert (∀ p, p ∈ filter (λ p : string * gmap string Response,
                             fst p = CACHE_NAME) cs' →
               fst p = CACHE_NAME ∧ p ∈ cs') as Hkept
    by (intros p Hp; by apply list_elem_of_filter in Hp).
  assert ((CACHE_NAME, c0) ∈ filter (λ p : string * gmap string Response,
                                       fst p = CACHE_NAME) cs') as Hc0'
    by (by apply list_elem_of_filter).
  split; [| split].
  - intros name Hname. unfold cachesKeys in Hname.
    apply list_elem_of_In, in_map_iff in Hname as (p & <- & Hp).
    apply list_elem_of_In, Hkept in Hp. tauto.
  - intros name Hname.
    destruct (lookupCache name _) as [c |] eqn:E; [| done].
    apply lookupCache_Some, Hkept in E as [E _]. simpl in E. congruence.
  - intros u Hu. destruct (Hall u Hu) as (r & Hr & Hheld).
    destruct (lookupCache CACHE_NAME _) as [c |] eqn:E.
    2: { exfalso. by apply (lookupCache_None _ _ E _ Hc0'). }
    exists r, c. split; [done |]. split; [done |].
    pose proof E as Hc. apply lookupCache_Some, Hkept in Hc as [_ Hc].
    split; [by apply (Hheld _ Hc) |].
    intros request Hget Hurl Hhttp. unfold onFetch.
    rewrite Hget, Hhttp. simpl.
    rewrite (cachesMatch_every (url request) r); [done | |].
    + intros Hnil. rewrite Hnil in Hc0'. by apply elem_of_nil in Hc0'.
    + intros p Hp. apply Hkept in Hp as [Hn Hp]. rewrite Hurl.
      by apply Hheld.
Qed.

Lemma C7_activation_leaves_only_new_epoch_witness :
  let st := activate (fst (install Demo.atFactory Demo.online Demo.epoch_v1_1)) in
  lookupCache "smart-factory-v1.1" st = None
  ∧ ∃ r, onFetch Demo.offline
           {| method := "GET";
              url := "https://factory.example/index.html";
              destination := "document" |} st
         = (st, FromCache r).
Proof.
  cbv zeta.
  destruct (C7_activation_leaves_only_new_epoch Demo.atFactory Demo.online
              Demo.offline Demo.epoch_v1_1
              (fst (install Demo.atFactory Demo.online Demo.epoch_v1_1)))
    as (_ & Hold & Hnew).
  - vm_compute. reflexivity.
  - split.
    + apply Hold. vm_compute. discriminate.
    + destruct (Hnew "/index.html") as (r & c & _ & _ & _ & Hserved).
      * apply elem_of_cons. right. apply elem_of_cons. by left.
      * exists r. apply Hserved; reflexivity.
Defined.

Example previous_epoch_was_retrievable :
  cachesMatch "https://factory.example/" Demo.epoch_v1_1
  = Some {| r_status := 200; r_type := "basic"; r_body := "previous" |}.
Proof. vm_compute. reflexivity. Qed.

End ServiceWorkerFacts.

(** ** Further properties of the aggregation rule *)

Module AggregationMore.
Import Factory Notions AggregationFacts.

(** X1: the status of a line made of two groups of machines is determined
    by the statuses of the groups: 'stopped' if either group is stopped,
    'running' if both run, 'warning' otherwise. *)
Theorem X1_aggregate_app (l1 l2 : list string) :
  aggregate (l1 ++ l2)%list = mergeStatus (aggregate l1) (aggregate l2).
Proof.
  unfold aggregate, mergeStatus.
  rewrite !existsb_app, forallb_app.
  destruct (existsb (String.eqb "offline") l1),
           (existsb (String.eqb "maintenance") l1),
           (existsb (String.eqb "offline") l2),
           (existsb (String.eqb "maintenance") l2),
           (forallb (fun s => String.eqb s "running") l1),
           (forallb (fun s => String.eqb s "running") l2);
    reflexivity.
Qed.

(** X2: the aggregated status depends only on which statuses occur, not
    on their order or multiplicity. *)
Theorem X2_aggregate_same_members (l1 l2 : list string) :
  (∀ x, x ∈ l1 ↔ x ∈ l2) → aggregate l1 = aggregate l2.
Proof.
  intros Hsame. rewrite !aggregate_spec. unfold spec_line_status.
  assert (Exists (fun s => s = "offline" ∨ s = "maintenance") l1
          ↔ Exists (fun s => s = "offline" ∨ s = "maintenance") l2) as Hex.
  { rewrite !Exists_exists. split; intros (s & Hs & Hp); exists s;
      (split; [by apply Hsame | done]). }
  assert (Forall (fun s => s = "running") l1
          ↔ Forall (fun s => s = "running") l2) as Hall.
  { rewrite !Forall_forall. split; intros H s Hs; apply H; by apply Hsame. }
  destruct (decide (Exists (fun s => s = "offline" ∨ s = "maintenance") l1)),
           (decide (Exists (fun s => s = "offline" ∨ s = "maintenance") l2)),
           (decide (Forall (fun s => s = "running") l1)),
           (decide (Forall (fun s => s = "running") l2));
    try reflexivity; exfalso; tauto.
Qed.

Lemma X2_aggregate_same_members_witness :
  aggregate ["running"; "stopped"; "running"] = aggregate ["stopped"; "running"].
Proof.
  apply X2_aggregate_same_members. intros x.
  rewrite !elem_of_cons, !elem_of_nil. tauto.
Defined.

Lemma aggregate_replicate_stopped (n : nat) :
  aggregate (replicate (S n) "stopped") = "warning".
Proof.
  unfold aggregate.
  assert (∀ k x, x ≠ "stopped" →
            existsb (String.eqb x) (replicate k "stopped") = false) as Hno.
  { intros k x Hx. induction k as [| k IH]; [done |]. simpl.
    apply String.eqb_neq in Hx. by rewrite Hx. }
  by rewrite !Hno.
Qed.

End AggregationMore.

(** ** Further properties of line construction *)

Module ConstructionMore.
Import Factory Notions AggregationFacts AggregationMore ConstructionFacts.

Lemma createMachines_created lineId lineStatus zPosition ent cfgs :
  ∀ index s (id : string),
    id ∈ map cfg_id cfgs →
    ∃ m config,
      machines (createMachines lineId lineStatus zPosition ent index cfgs s) !! id
      = Some m
      ∧ config ∈ cfgs ∧ cfg_id config = id
      ∧ status m = machineStatusOf lineStatus config.
Proof.
  induction cfgs as [| c rest IH]; intros index s id Hid.
  - by apply elem_of_nil in Hid.
  - destruct (decide (id ∈ map cfg_id rest)) as [Hin | Hout].
    + destruct (IH (S index)
                  (createMachine (cfg_id c) (cfg_name c)
                     (-8 + Z.of_nat index * 5) 0 zPosition
                     (machineStatusOf lineStatus c)
                     (getMachineColor (machineStatusOf lineStatus c))
                     (cfg_type c) lineId (ent index) s) id Hin)
        as (m & config & Hm & Hc & Hid' & Hst).
      exists m, config. repeat split; try done. by right.
    + simpl in Hid. apply elem_of_cons in Hid as [-> | Hid]; [| done].
      simpl. rewrite createMachines_other by done. simpl.
      rewrite lookup_insert_eq. eexists. exists c.
      repeat split; try done. by left.
Qed.

Lemma omap_members {A} (f : string → option A) (g : MachineConfig → A)
    (l : list MachineConfig) :
  (∀ c, c ∈ l → f (cfg_id c) = Some (g c)) →
  omap f (map cfg_id l) = map g l.
Proof.
  induction l as [| c rest IH]; intros Hall; [done |].
  simpl. rewrite (Hall c) by (by left). f_equal.
  apply IH. intros c' Hc'. apply Hall. by right.
Qed.

(** X3: a line whose member ids are distinct and whose aggregated status
    is not 'stopped' is consistent when it has been built: the statuses
    stored for its members are the configured ones, and the line's stored
    status is the rule evaluated on them. *)
Theorem X3_line_fresh_at_construction
    (lineId lineName : string) (machinesConfig : list MachineConfig)
    (zPosition : Z) (lineColor : string) (ent : nat → Entropy) (s : Store) :
  NoDup (map cfg_id machinesConfig) →
  calculateLineStatus machinesConfig ≠ "stopped" →
  let built := createProductionLine lineId lineName machinesConfig
                 zPosition lineColor ent s in
  ∃ l, productionLines built !! lineId = Some l
       ∧ memberStatuses built l = map cfg_status machinesConfig
       ∧ lineFresh built l.
Proof.
  intros Hnd Hns built. eexists.
  split; [apply createProductionLine_line |].
  assert (memberStatuses built
            {| line_id := lineId; line_name := lineName;
               line_status := calculateLineStatus machinesConfig;
               line_machines := map cfg_id machinesConfig;
               line_color := lineColor; line_position := zPosition |}
          = map cfg_status machinesConfig) as Hmem.
  { unfold memberStatuses. simpl. apply omap_members. intros c Hc.
    destruct (createMachines_member lineId (calculateLineStatus machinesConfig)
                zPosition ent machinesConfig 0 s c Hnd Hc) as (m & Hm & Hst & _).
    rewrite Hm. simpl. f_equal. rewrite Hst. unfold machineStatusOf.
    apply String.eqb_neq in Hns. by rewrite Hns. }
  split; [done |]. unfold lineFresh. by rewrite Hmem.
Qed.

Lemma X3_line_fresh_at_construction_witness :
  ∃ l, productionLines Demo.lineC_store !! "C" = Some l
       ∧ memberStatuses Demo.lineC_store l
         = ["running"; "running"; "running"; "running"]
       ∧ lineFresh Demo.lineC_store l.
Proof.
  apply (X3_line_fresh_at_construction "C" "Consumer Goods" Demo.lineC_config
           6 "green" Demo.midEntropy emptyStore).
  - apply (bool_decide_unpack _). vm_compute. exact I.
  - vm_compute. discriminate.
Defined.

Lemma omap_constant {A} (f : string → option A) (a : A) (ids : list string) :
  (∀ id, id ∈ ids → f id = Some a) → omap f ids = replicate (length ids) a.
Proof.
  induction ids as [| id rest IH]; intros Hall; [done |].
  simpl. rewrite (Hall id) by (by left). f_equal.
  apply IH. intros id' Hid'. apply Hall. by right.
Qed.

(** X4: when the aggregated status of the configuration is 'stopped', the
    line is stored as 'stopped' and so is every one of its members, whatever
    its configured status; the rule evaluated on the stored member statuses
    then gives 'warning', not the stored 'stopped'. *)
Theorem X4_stopped_line_members_all_stopped
    (lineId lineName : string) (machinesConfig : list MachineConfig)
    (zPosition : Z) (lineColor : string) (ent : nat → Entropy) (s : Store) :
  calculateLineStatus machinesConfig = "stopped" →
  let built := createProductionLine lineId lineName machinesConfig
                 zPosition lineColor ent s in
  ∃ l, productionLines built !! lineId = Some l
       ∧ line_status l = "stopped"
       ∧ memberStatuses built l
         = replicate (length machinesConfig) "stopped"
       ∧ aggregate (memberStatuses built l) = "warning".
Proof.
  intros Hst built. eexists.
  split; [apply createProductionLine_line |].
  split; [done |].
  assert (memberStatuses built
            {| line_id := lineId; line_name := lineName;
               line_status := calculateLineStatus machinesConfig;
               line_machines := map cfg_id machinesConfig;
               line_color := lineColor; line_position := zPosition |}
          = replicate (length machinesConfig) "stopped") as Hmem.
  { unfold memberStatuses. simpl.
    rewrite <- (length_map cfg_id machinesConfig).
    apply omap_constant. intros id Hid.
    destruct (createMachines_created lineId (calculateLineStatus machinesConfig)
                zPosition ent machinesConfig 0 s id Hid)
      as (m & c & Hm & _ & _ & Hs).
    rewrite Hm. simpl. f_equal. rewrite Hs, Hst. reflexivity. }
  split; [done |]. rewrite Hmem.
  destruct machinesConfig as [| c rest]; [discriminate Hst |].
  apply aggregate_replicate_stopped.
Qed.

Lemma X4_stopped_line_members_all_stopped_witness :
  ∃ l, productionLines Demo.lineA_store !! "A" = Some l
       ∧ line_status l = "stopped"
       ∧ memberStatuses Demo.lineA_store l
         = ["stopped"; "stopped"; "stopped"; "stopped"]
       ∧ aggregate (memberStatuses Demo.lineA_store l) = "warning".
Proof.
  apply (X4_stopped_line_members_all_stopped "A" "Automotive Parts"
           Demo.lineA_config (-6) "red" Demo.midEntropy emptyStore).
  reflexivity.
Defined.

(** X5: building a line leaves every other line, and every machine whose
    id is not in the configuration, as they were. *)
Theorem X5_construction_touches_only_its_own
    (lineId lineName : string) (machinesConfig : list MachineConfig)
    (zPosition : Z) (lineColor : string) (ent : nat → Entropy) (s : Store) :
  let built := createProductionLine lineId lineName machinesConfig
                 zPosition lineColor ent s in
  (∀ other : string, other ≠ lineId →
     productionLines built !! other = productionLines s !! other)
  ∧ (∀ id : string, id ∉ map cfg_id machinesConfig →
       machines built !! id = machines s !! id).
Proof.
  cbv zeta. unfold createProductionLine. simpl. split.
  - intros other Hne. rewrite lookup_insert_ne by done.
    by rewrite createMachines_lines.
  - intros id Hid. by apply createMachines_other.
Qed.

End ConstructionMore.

(** ** Further properties of realtime frames *)

Module EventMore.
Import Factory Notions EventFacts.

Lemma names_true id data :
  names id data = true ↔ ev_type data = "machineStatus" ∧ machineId data = id.
Proof.
  unfold names. rewrite andb_true_iff, !String.eqb_eq. tauto.
Qed.

(** The store a frame leaves when it names a stored machine. *)
Lemma handle_known data s machine :
  ev_type data = "machineStatus" →
  machines s !! machineId data = Some machine →
  fst (handleRealtimeData data s)
  = {| machines := <[machineId data := afterFrame data machine]> (machines s);
       productionLines := productionLines s |}.
Proof.
  intros Hty Hm. unfold handleRealtimeData, updateMachineVisualStatus.
  rewrite Hty, Hm. simpl. rewrite lookup_insert_eq. simpl.
  by rewrite insert_insert_eq.
Qed.

(** A frame of another type, or one that names no stored machine, leaves
    the store alone. *)
Lemma handle_ignored data s :
  ev_type data ≠ "machineStatus" ∨ machines s !! machineId data = None →
  fst (handleRealtimeData data s) = s.
Proof.
  unfold handleRealtimeData. intros [Hty | Hnone].
  - apply String.eqb_neq in Hty. rewrite Hty.
    by destruct (String.eqb (ev_type data) "alert").
  - rewrite Hnone.
    destruct (String.eqb (ev_type data) "machineStatus");
      by destruct (String.eqb (ev_type data) "alert").
Qed.

(** What one frame does to the entry of any id. *)
Lemma handle_lookup data s (id : string) :
  machines (fst (handleRealtimeData data s)) !! id
  = if names id data then afterFrame data <$> machines s !! id
    else machines s !! id.
Proof.
  destruct (names id data) eqn:Hn.
  - apply names_true in Hn as [Hty <-].
    destruct (machines s !! machineId data) as [m |] eqn:Hm.
    + rewrite (handle_known _ _ _ Hty Hm). simpl. by rewrite lookup_insert_eq.
    + rewrite handle_ignored by (by right). by rewrite Hm.
  - destruct (decide (ev_type data = "machineStatus")) as [Hty | Hty].
    + apply handleRealtimeData_others. intros ->.
      assert (names (machineId data) data = true) by (by apply names_true).
      congruence.
    + rewrite handle_ignored by (by left). done.
Qed.

Lemma handleAll_app evs1 evs2 s :
  handleAll (evs1 ++ evs2)%list s = handleAll evs2 (handleAll evs1 s).
Proof. unfold handleAll. apply fold_left_app. Qed.

Lemma or_else_idem a b : JS.or_else a (JS.or_else a b) = JS.or_else a b.
Proof. destruct a as [v |]; [| done]. simpl. by destruct (JS.truthy v). Qed.

Lemma afterFrame_idem data machine :
  afterFrame data (afterFrame data machine) = afterFrame data machine.
Proof.
  unfold afterFrame, applyStatus. simpl. by rewrite !or_else_idem.
Qed.

(** X6: handling the same frame twice in a row leaves the same store as
    handling it once. *)
Theorem X6_frame_idempotent (data : Event) (s : Store) :
  fst (handleRealtimeData data (fst (handleRealtimeData data s)))
  = fst (handleRealtimeData data s).
Proof.
  destruct (decide (ev_type data = "machineStatus")) as [Hty | Hty].
  - destruct (machines s !! machineId data) as [m |] eqn:Hm.
    + rewrite (handle_known data s m Hty Hm).
      rewrite (handle_known data _ (afterFrame data m) Hty)
        by (simpl; apply lookup_insert_eq).
      simpl. by rewrite insert_insert_eq, afterFrame_idem.
    + rewrite (handle_ignored data s) by (by right).
      apply handle_ignored. by right.
  - rewrite (handle_ignored data s) by (by left).
    apply handle_ignored. by left.
Qed.

Lemma afterFrame_identity data machine :
  sameIdentity machine (afterFrame data machine).
Proof. by repeat split. Qed.

Lemma handleAll_keeps (evs : list Event) (s : Store) (id : string) :
  match machines s !! id with
  | Some m => ∃ m', machines (handleAll evs s) !! id = Some m'
                    ∧ sameIdentity m m'
  | None => machines (handleAll evs s) !! id = None
  end.
Proof.
  revert s. induction evs as [| data rest IH]; intros s.
  - simpl. destruct (machines s !! id) as [m |]; [| done].
    exists m. by repeat split.
  - change (handleAll (data :: rest) s)
      with (handleAll rest (fst (handleRealtimeData data s))).
    specialize (IH (fst (handleRealtimeData data s))).
    rewrite handle_lookup in IH.
    destruct (machines s !! id) as [m |].
    + destruct (names id data); simpl in IH; [| done].
      destruct IH as (m' & Hm' & Hid). exists m'. split; [done |].
      destruct Hid as (H1 & H2 & H3 & H4 & H5). by repeat split.
    + by destruct (names id data).
Qed.

(** X7: no sequence of frames creates or removes a machine, and none
    changes a machine's id, name, position or maintenance dates. *)
Theorem X7_frames_keep_machines (evs : list Event) (s : Store) (id : string) :
  match machines s !! id with
  | Some m => ∃ m', machines (handleAll evs s) !! id = Some m'
                    ∧ machine_id m' = machine_id m
                    ∧ machine_name m' = machine_name m
                    ∧ position m' = position m
                    ∧ lastMaintenance m' = lastMaintenance m
                    ∧ nextMaintenance m' = nextMaintenance m
  | None => machines (handleAll evs s) !! id = None
  end.
Proof.
  pose proof (handleAll_keeps evs s id) as H.
  destruct (machines s !! id) as [m |]; [| done].
  destruct H as (m' & Hm' & Hid). exists m'. split; [done |]. exact Hid.
Qed.

Lemma handleAll_unnamed rest : ∀ s (id : string),
  forallb (fun e => negb (names id e)) rest = true →
  machines (handleAll rest s) !! id = machines s !! id.
Proof.
  induction rest as [| e rest IH]; intros s id Hall; [done |].
  simpl in Hall. apply andb_true_iff in Hall as [He Hrest].
  change (handleAll (e :: rest) s)
    with (handleAll rest (fst (handleRealtimeData e s))).
  rewrite IH by done. rewrite handle_lookup.
  by destruct (names id e).
Qed.

(** X8: the status stored for a machine after a sequence of frames is the
    status of the last frame that names it. *)
Theorem X8_last_frame_sets_status
    (evs : list Event) (data : Event) (rest : list Event)
    (s : Store) (id : string) (m : Machine) :
  machines s !! id = Some m →
  names id data = true →
  forallb (fun e => negb (names id e)) rest = true →
  ∃ m', machines (handleAll (evs ++ data :: rest)%list s) !! id = Some m'
        ∧ status m' = ev_status data.
Proof.
  intros Hm Hd Hrest.
  rewrite handleAll_app.
  change (handleAll (data :: rest) (handleAll evs s))
    with (handleAll rest (fst (handleRealtimeData data (handleAll evs s)))).
  rewrite handleAll_unnamed by done. rewrite handle_lookup, Hd.
  pose proof (handleAll_keeps evs s id) as Hkeep. rewrite Hm in Hkeep.
  destruct Hkeep as (m1 & Hm1 & _). rewrite Hm1. simpl.
  eexists. split; [done |]. reflexivity.
Qed.

Lemma X8_last_frame_sets_status_witness :
  ∃ m', machines
          (handleAll [Demo.statusFrame "MACHINE_C1" "offline";
                      Demo.statusFrame "MACHINE_C1" "maintenance";
                      Demo.statusFrame "MACHINE_C2" "offline"]
             Demo.lineC_store) !! "MACHINE_C1" = Some m'
        ∧ status m' = "maintenance".
Proof.
  apply (X8_last_frame_sets_status
           [Demo.statusFrame "MACHINE_C1" "offline"]
           (Demo.statusFrame "MACHINE_C1" "maintenance")
           [Demo.statusFrame "MACHINE_C2" "offline"]
           Demo.lineC_store "MACHINE_C1" Demo.machineC1);
    vm_compute; reflexivity.
Defined.

Lemma or_else_nonzero a b : ¬ (b == 0)%Q → ¬ (JS.or_else a b == 0)%Q.
Proof.
  intros Hb. destruct a as [v |]; [| done]. unfold JS.or_else, JS.truthy.
  destruct (Qeq_bool v 0) eqn:E; simpl; [done |].
  intros Hv. apply Qeq_bool_iff in Hv. congruence.
Qed.

Lemma afterFrame_nonzero data machine :
  metricsNonZero machine → metricsNonZero (afterFrame data machine).
Proof.
  intros (Ht & Hv & He). unfold metricsNonZero, afterFrame, applyStatus. simpl.
  repeat split; by apply or_else_nonzero.
Qed.

(** X9: frames never bring a metric down to zero: a machine whose
    temperature, vibration and efficiency are all non-zero still has all
    three non-zero after any sequence of frames. *)
Theorem X9_metrics_stay_nonzero
    (evs : list Event) (s : Store) (id : string) (m : Machine) :
  machines s !! id = Some m →
  metricsNonZero m →
  ∃ m', machines (handleAll evs s) !! id = Some m' ∧ metricsNonZero m'.
Proof.
  revert s m. induction evs as [| data rest IH]; intros s m Hm Hnz.
  - exists m. by split.
  - change (handleAll (data :: rest) s)
      with (handleAll rest (fst (handleRealtimeData data s))).
    pose proof (handle_lookup data s id) as Hstep. rewrite Hm in Hstep.
    destruct (names id data); simpl in Hstep.
    + apply (IH _ _ Hstep). by apply afterFrame_nonzero.
    + by apply (IH _ _ Hstep).
Qed.

Lemma X9_metrics_stay_nonzero_witness :
  ∃ m', machines (handleAll [Demo.haltedFrame; Demo.mildFrame] Demo.lineC_store)
          !! "MACHINE_C1" = Some m'
        ∧ metricsNonZero m'.
Proof.
  apply (X9_metrics_stay_nonzero [Demo.haltedFrame; Demo.mildFrame]
           Demo.lineC_store "MACHINE_C1" Demo.machineC1).
  - vm_compute. reflexivity.
  - unfold metricsNonZero. vm_compute. repeat split; discriminate.
Defined.

(** X10: after a frame for a stored machine the status light has the
    colour of the new status, and the body colour written by the handler
    agrees with [getMachineColor] exactly when the new status is 'running',
    'maintenance' or 'offline' (any other status, 'stopped' included, is
    painted in the offline colour). *)
Theorem X10_frame_colours (data : Event) (s : Store) (m : Machine) :
  ev_type data = "machineStatus" →
  machines s !! machineId data = Some m →
  ∃ m', machines (fst (handleRealtimeData data s)) !! machineId data = Some m'
        ∧ lightColor m' = statusLightColor (ev_status data)
        ∧ (bodyColor m' = getMachineColor (ev_status data)
           ↔ ev_status data ∈ ["running"; "maintenance"; "offline"])
        ∧ (ev_status data ∉ ["running"; "maintenance"; "offline"] →
           bodyColor m' = 0xff4757%Z).
Proof.
  intros Hty Hm. rewrite (handle_known data s m Hty Hm). simpl.
  rewrite lookup_insert_eq. eexists. split; [done |]. simpl.
  split; [done |].
  unfold getMachineColor. rewrite !elem_of_cons, elem_of_nil.
  destruct (String.eqb (ev_status data) "running") eqn:E1.
  { apply String.eqb_eq in E1. split; [tauto | tauto]. }
  destruct (String.eqb (ev_status data) "maintenance") eqn:E2.
  { apply String.eqb_eq in E2. split; [tauto | tauto]. }
  destruct (String.eqb (ev_status data) "offline") eqn:E3.
  { apply String.eqb_eq in E3. split; [tauto | tauto]. }
  apply String.eqb_neq in E1, E2, E3.
  split; [| done].
  split; [| tauto].
  destruct (String.eqb (ev_status data) "stopped"); discriminate.
Qed.

Lemma X10_frame_colours_witness :
  ∃ m', machines (fst (handleRealtimeData
                         (Demo.statusFrame "MACHINE_C1" "stopped")
                         Demo.lineC_store)) !! "MACHINE_C1" = Some m'
        ∧ lightColor m' = 0x00ff00%Z
        ∧ bodyColor m' = 0xff4757%Z.
Proof.
  destruct (X10_frame_colours (Demo.statusFrame "MACHINE_C1" "stopped")
              Demo.lineC_store Demo.machineC1)
    as (m' & Hm' & Hl & _ & Hb).
  - reflexivity.
  - vm_compute. reflexivity.
  - exists m'. split; [exact Hm' |]. split; [exact Hl |].
    apply Hb. rewrite !elem_of_cons, elem_of_nil. simpl.
    intros [H | [H | [H | H]]]; try discriminate H. exact H.
Defined.

End EventMore.

(** ** Further properties of the predictive assessment *)

Module PredictiveMore.
Import Factory Notions Predictive PredictiveFacts.

Local Open Scope Q_scope.

Lemma window_nonneg (r : Q) : 0 <= maintenanceWindow r.
Proof. unfold maintenanceWindow. js_cases; lra. Qed.

Lemma window_le_14 (r : Q) : 0 <= r → maintenanceWindow r <= 14.
Proof. intros Hr. unfold maintenanceWindow. js_cases; lra. Qed.

Lemma round_nonneg (x : Q) : 0 <= x → (0 <= JS.round x)%Z.
Proof.
  intros Hx. destruct (round_nearest x) as [_ Hhi].
  assert (inject_Z (-1) < inject_Z (JS.round x)) as Hlt
    by (change (inject_Z (-1)) with (- (1)); lra).
  rewrite <- Zlt_Qlt in Hlt. lia.
Qed.

Lemma round_le (x : Q) (n : Z) : x <= inject_Z n → (JS.round x <= n)%Z.
Proof.
  intros Hx. destruct (round_nearest x) as [Hlo _].
  assert (inject_Z (JS.round x) < inject_Z (n + 1)) as Hlt
    by (rewrite inject_Z_plus; change (inject_Z 1) with 1; lra).
  rewrite <- Zlt_Qlt in Hlt. lia.
Qed.

Lemma trunc_ge (x : Q) (n : Z) : inject_Z n <= x → (n <= JS.trunc x)%Z.
Proof.
  intros Hx. destruct (trunc_near x) as [_ Hhi].
  assert (inject_Z (n - 1) < inject_Z (JS.trunc x)) as Hlt.
  { unfold Z.sub. rewrite inject_Z_plus, inject_Z_opp.
    change (inject_Z 1) with 1. lra. }
  rewrite <- Zlt_Qlt in Hlt. lia.
Qed.

Lemma trunc_le (x : Q) (n : Z) : x <= inject_Z n → (JS.trunc x <= n)%Z.
Proof.
  intros Hx. destruct (trunc_near x) as [Hlo _].
  assert (inject_Z (JS.trunc x) < inject_Z (n + 1)) as Hlt
    by (rewrite inject_Z_plus; change (inject_Z 1) with 1; lra).
  rewrite <- Zlt_Qlt in Hlt. lia.
Qed.

(** The assessment of a stored machine, spelled out. *)
Lemma assessment_of id now_run now_date rnd s a :
  calculatePredictiveMaintenance id now_run now_date rnd s = Some a →
  ∃ machine,
    machines s !! id = Some machine
    ∧ riskScore a = overallRisk (factorsOf machine now_run rnd)
    ∧ daysToMaintenance a = JS.round (maintenanceWindow (riskScore a))
    ∧ predictedMaintenanceDate a
      = JS.trunc (inject_Z now_date + maintenanceWindow (riskScore a) * day_ms)
    ∧ recommendation a
      = getMaintenanceRecommendation (riskScore a)
          (maintenanceWindow (riskScore a)).
Proof.
  unfold calculatePredictiveMaintenance.
  destruct (machines s !! id) as [machine |]; [| done].
  intros [= <-]. exists machine. by repeat split.
Qed.

(** X11: the assessment of a stored machine never recommends MEDIUM: the
    recommendation is CRITICAL, HIGH or LOW, because a window of two days
    or less already means a risk above 0.8, which is answered CRITICAL. *)
Theorem X11_medium_never_returned
    (id : string) (now_run now_date : Z) (rnd : Q) (s : Store)
    (machine : Machine) :
  machines s !! id = Some machine →
  ∃ a, calculatePredictiveMaintenance id now_run now_date rnd s = Some a
       ∧ priority (recommendation a) ≠ "MEDIUM"
       ∧ priority (recommendation a) ∈ ["CRITICAL"; "HIGH"; "LOW"].
Proof.
  intros Hm. unfold calculatePredictiveMaintenance. rewrite Hm.
  eexists. split; [reflexivity |]. cbn [recommendation].
  unfold getMaintenanceRecommendation.
  set (r := overallRisk (factorsOf machine now_run rnd)).
  rewrite !elem_of_cons.
  destruct (Qle_bool r (8 # 10)) eqn:E8; simpl; [| by auto].
  destruct (Qle_bool r (6 # 10)) eqn:E6; simpl; [| by auto].
  apply Qle_bool_iff in E6.
  destruct (Qle_bool (maintenanceWindow r) 2) eqn:E2; simpl; [| by auto].
  exfalso. apply Qle_bool_iff in E2. revert E2.
  unfold maintenanceWindow. js_cases; lra.
Qed.

Lemma X11_medium_never_returned_witness :
  ∃ a, calculatePredictiveMaintenance "MACHINE_C1"
         1700000000000 1700000000000 (1 # 2)
         {| machines := {[ "MACHINE_C1" := Demo.overheatedC1 ]};
            productionLines := ∅ |} = Some a
       ∧ priority (recommendation a) ≠ "MEDIUM"
       ∧ priority (recommendation a) ∈ ["CRITICAL"; "HIGH"; "LOW"].
Proof.
  apply (X11_medium_never_returned "MACHINE_C1"
           1700000000000 1700000000000 (1 # 2)
           {| machines := {[ "MACHINE_C1" := Demo.overheatedC1 ]};
              productionLines := ∅ |} Demo.overheatedC1).
  reflexivity.
Defined.

Lemma bounded_assessment (machine : Machine) (now_run : Z) (rnd : Q) :
  temperature machine <= 100 →
  0 <= vibration machine <= 10 →
  65 <= efficiency machine →
  (lastMaintenance machine <= now_run)%Z →
  0 <= overallRisk (factorsOf machine now_run rnd) <= 1
  ∧ (0 <= JS.round (maintenanceWindow
                      (overallRisk (factorsOf machine now_run rnd))) <= 14)%Z.
Proof.
  intros Ht Hv He Hl.
  destruct (risk_bounded_in_range (factorsOf machine now_run rnd))
    as (_ & _ & _ & _ & Hr); simpl; try done; [lia |].
  split; [done |]. split.
  - apply round_nonneg, window_nonneg.
  - apply round_le. change (inject_Z 14) with 14. apply window_le_14. tauto.
Qed.

(** X13: for a stored machine whose temperature is at most 100, whose
    vibration is between 0 and 10, whose efficiency is at least 65 and
    whose last maintenance is not after the clock reading, the risk score
    is between 0 and 1 and the returned daysToMaintenance between 0 and
    14. *)
Theorem X13_assessment_bounded_in_range
    (id : string) (now_run now_date : Z) (rnd : Q) (s : Store)
    (machine : Machine) :
  machines s !! id = Some machine →
  temperature machine <= 100 →
  0 <= vibration machine <= 10 →
  65 <= efficiency machine →
  (lastMaintenance machine <= now_run)%Z →
  ∃ a, calculatePredictiveMaintenance id now_run now_date rnd s = Some a
       ∧ 0 <= riskScore a <= 1
       ∧ (0 <= daysToMaintenance a <= 14)%Z.
Proof.
  intros Hm Ht Hv He Hl. unfold calculatePredictiveMaintenance. rewrite Hm.
  eexists. split; [reflexivity |]. simpl.
  by apply bounded_assessment.
Qed.

Lemma X13_assessment_bounded_in_range_witness :
  ∃ a, calculatePredictiveMaintenance "MACHINE_C1"
         1700000000000 1700000000000 (1 # 2)
         {| machines := {[ "MACHINE_C1" := Demo.mildC1 ]};
            productionLines := ∅ |} = Some a
       ∧ 0 <= riskScore a <= 1
       ∧ (0 <= daysToMaintenance a <= 14)%Z.
Proof.
  apply (X13_assessment_bounded_in_range "MACHINE_C1"
           1700000000000 1700000000000 (1 # 2)
           {| machines := {[ "MACHINE_C1" := Demo.mildC1 ]};
              productionLines := ∅ |} Demo.mildC1).
  - reflexivity.
  - vm_compute. discriminate.
  - split; vm_compute; discriminate.
  - vm_compute. discriminate.
  - vm_compute. discriminate.
Defined.

(** X12: for a stored machine whose temperature is at most 100, whose
    vibration is between 0 and 10, whose efficiency is at least 65 and
    whose last maintenance is not after the clock reading, and for a clock
    reading at which fourteen more days stay inside the range of [Date],
    the predicted maintenance date lies between the clock reading and
    fourteen days (1 209 600 000 ms) after it. *)
Theorem X12_predicted_date_within_fortnight
    (id : string) (now_run now_date : Z) (rnd : Q) (s : Store)
    (machine : Machine) :
  machines s !! id = Some machine →
  temperature machine <= 100 →
  0 <= vibration machine <= 10 →
  65 <= efficiency machine →
  (lastMaintenance machine <= now_run)%Z →
  (0 <= now_date <= 8640000000000000 - 1209600000)%Z →
  ∃ a, calculatePredictiveMaintenance id now_run now_date rnd s = Some a
       ∧ (now_date <= predictedMaintenanceDate a <= now_date + 1209600000)%Z.
Proof.
  intros Hm Ht Hv He Hl _. unfold calculatePredictiveMaintenance. rewrite Hm.
  eexists. split; [reflexivity |]. cbn [predictedMaintenanceDate].
  destruct (risk_bounded_in_range (factorsOf machine now_run rnd))
    as (_ & _ & _ & _ & [Hr0 Hr1]); simpl; try done; [lia |].
  set (r := overallRisk (factorsOf machine now_run rnd)) in *.
  pose proof (window_nonneg r) as Hw0.
  pose proof (window_le_14 r Hr0) as Hw14.
  unfold day_ms. split.
  - apply trunc_ge. nra.
  - apply trunc_le. rewrite inject_Z_plus.
    change (inject_Z 1209600000) with 1209600000. nra.
Qed.

Lemma X12_predicted_date_within_fortnight_witness :
  ∃ a, calculatePredictiveMaintenance "MACHINE_C1"
         1700000000000 1700000000000 (1 # 2)
         {| machines := {[ "MACHINE_C1" := Demo.mildC1 ]};
            productionLines := ∅ |} = Some a
       ∧ (1700000000000 <= predictedMaintenanceDate a
          <= 1700000000000 + 1209600000)%Z.
Proof.
  apply (X12_predicted_date_within_fortnight "MACHINE_C1"
           1700000000000 1700000000000 (1 # 2)
           {| machines := {[ "MACHINE_C1" := Demo.mildC1 ]};
              productionLines := ∅ |} Demo.mildC1).
  - reflexivity.
  - vm_compute. discriminate.
  - split; vm_compute; discriminate.
  - vm_compute. discriminate.
  - vm_compute. discriminate.
  - split; vm_compute; discriminate.
Defined.

(** X14: a machine that [createMachine] has just stored, with every
    random draw in [0, 1), and that is assessed at a clock reading not
    before the one it was created at, has a risk score between 0 and 1 and
    a returned daysToMaintenance between 0 and 14. *)
Theorem X14_fresh_machine_bounded
    (id name : string) (x y z : Z) (st : string) (color : Z)
    (type lineId : string) (e : Entropy) (s : Store)
    (now_run now_date : Z) (rnd : Q) :
  0 <= rnd_temperature e < 1 →
  0 <= rnd_vibration e < 1 →
  0 <= rnd_efficiency e < 1 →
  0 <= rnd_last e < 1 →
  (now_last e <= now_run)%Z →
  ∃ a, calculatePredictiveMaintenance id now_run now_date rnd
         (createMachine id name x y z st color type lineId e s) = Some a
       ∧ 0 <= riskScore a <= 1
       ∧ (0 <= daysToMaintenance a <= 14)%Z.
Proof.
  intros Ht Hv He Hl Hnow.
  unfold calculatePredictiveMaintenance, createMachine. simpl.
  rewrite lookup_insert_eq. eexists. split; [reflexivity |]. simpl.
  apply bounded_assessment; simpl.
  - lra.
  - lra.
  - lra.
  - apply Z.le_trans with (now_last e); [| done].
    apply trunc_le.
    assert (0 <= rnd_last e * month_ms) as H
      by (apply Qmult_le_0_compat; [tauto | by vm_compute]).
    lra.
Qed.

Lemma X14_fresh_machine_bounded_witness :
  ∃ a, calculatePredictiveMaintenance "MACHINE_C1"
         1700000000001 1700000000002 (1 # 2)
         (createMachine "MACHINE_C1" "Injection Molder C1" (-8) 0 6
            "running" 0x00ff88 "molding" "C" (Demo.midEntropy 0) emptyStore)
       = Some a
       ∧ 0 <= riskScore a <= 1
       ∧ (0 <= daysToMaintenance a <= 14)%Z.
Proof.
  apply X14_fresh_machine_bounded;
    try (split; vm_compute; (discriminate || reflexivity)).
  vm_compute. discriminate.
Defined.

(** X15: where each component starts and saturates.  The temperature
    component is zero exactly up to 75 degrees and one exactly at 100; the
    efficiency component is zero exactly from 85 percent upwards; the time
    component is one exactly from thirty days (2 592 000 000 ms) after the
    last maintenance. *)
Theorem X15_component_thresholds (f : Factors) :
  (tempRisk f == 0 ↔ f_temperature f <= 75)
  ∧ (tempRisk f == 1 ↔ f_temperature f == 100)
  ∧ (efficiencyRisk f == 0 ↔ 85 <= f_efficiency f)
  ∧ (timeRisk f == 1 ↔ (2592000000 <= runTime f)%Z).
Proof.
  unfold tempRisk, efficiencyRisk, timeRisk.
  change 2592000000%Z with (Qnum 2592000000) at 1.
  rewrite Zle_Qle.
  change (inject_Z (Qnum 2592000000)) with 2592000000.
  repeat split; js_cases; const_div; intros; lra.
Qed.

End PredictiveMore.

(** ** Further properties of the service worker *)

Module ServiceWorkerMore.
Import Notions ServiceWorker ServiceWorkerFacts.

Lemma cachesMatch_app u (cs1 cs2 : CacheStorage) :
  cachesMatch u (cs1 ++ cs2)%list
  = match cachesMatch u cs1 with
    | Some r => Some r
    | None => cachesMatch u cs2
    end.
Proof.
  induction cs1 as [| [n c] rest IH]; [done |]. simpl.
  by destruct (c !! u).
Qed.

Lemma cachesMatch_open u name (cs : CacheStorage) :
  cachesMatch u (cachesOpen name cs) = cachesMatch u cs.
Proof.
  unfold cachesOpen. destruct (lookupCache name cs); [done |].
  rewrite cachesMatch_app. simpl. rewrite lookup_empty.
  by destruct (cachesMatch u cs).
Qed.

(** X17: a failed [install] makes nothing retrievable that was not
    before and loses nothing: [caches.match] answers every URL as it did
    before the attempt. *)
Theorem X17_failed_install_stores_nothing
    (resolve : string → string) (network : Network) (cs : CacheStorage)
    (u : string) :
  snd (install resolve network cs) = false →
  cachesMatch u (fst (install resolve network cs)) = cachesMatch u cs.
Proof.
  unfold install.
  destruct (fetchAll network (map resolve urlsToCache)); simpl; [done |].
  intros _. apply cachesMatch_open.
Qed.

Lemma X17_failed_install_stores_nothing_witness :
  cachesMatch "https://factory.example/"
    (fst (install Demo.atFactory Demo.offline Demo.epoch_v1_1))
  = cachesMatch "https://factory.example/" Demo.epoch_v1_1.
Proof.
  apply X17_failed_install_stores_nothing. reflexivity.
Defined.

Lemma lookupCache_app_other name other (cs : CacheStorage) c :
  name ≠ other →
  lookupCache name (cs ++ [(other, c)])%list = lookupCache name cs.
Proof.
  intros Hne. unfold lookupCache.
  induction cs as [| [n c'] rest IH]; simpl.
  - apply String.eqb_neq in Hne. rewrite String.eqb_sym in Hne.
    rewrite String.eqb_sym. rewrite String.eqb_sym in Hne. by rewrite Hne.
  - destruct (String.eqb n name); [done | apply IH].
Qed.

Lemma lookupCache_open_other name other (cs : CacheStorage) :
  name ≠ other → lookupCache name (cachesOpen other cs) = lookupCache name cs.
Proof.
  intros Hne. unfold cachesOpen. destruct (lookupCache other cs); [done |].
  by apply lookupCache_app_other.
Qed.

Lemma lookupCache_update_other name other f (cs : CacheStorage) :
  name ≠ other → lookupCache name (update other f cs) = lookupCache name cs.
Proof.
  intros Hne. unfold lookupCache, update.
  induction cs as [| [n c] rest IH]; [done |]. simpl.
  destruct (String.eqb n other) eqn:E; simpl.
  - apply String.eqb_eq in E. subst n.
    assert (String.eqb other name = false) as ->
      by (apply String.eqb_neq; congruence).
    apply IH.
  - destruct (String.eqb n name); [done | apply IH].
Qed.

(** X18: [install], whether it succeeds or fails, leaves every cache
    with a name other than [CACHE_NAME] as it was: the previous epoch stays
    in place until [activate]. *)
Theorem X18_install_keeps_other_epochs
    (resolve : string → string) (network : Network) (cs : CacheStorage)
    (name : string) :
  name ≠ CACHE_NAME →
  lookupCache name (fst (install resolve network cs)) = lookupCache name cs.
Proof.
  intros Hne. unfold install.
  destruct (fetchAll network (map resolve urlsToCache)); simpl.
  - rewrite lookupCache_update_other by done.
    by apply lookupCache_open_other.
  - by apply lookupCache_open_other.
Qed.

Lemma X18_install_keeps_other_epochs_witness :
  lookupCache "smart-factory-v1.1"
    (fst (install Demo.atFactory Demo.online Demo.epoch_v1_1))
  = lookupCache "smart-factory-v1.1" Demo.epoch_v1_1.
Proof.
  apply X18_install_keeps_other_epochs. vm_compute. discriminate.
Defined.

Lemma lookupCache_filter name (cs : CacheStorage) :
  lookupCache name (filter (fun p => fst p = name) cs) = lookupCache name cs.
Proof.
  unfold lookupCache. induction cs as [| [n c] rest IH]; [done |].
  destruct (decide (n = name)) as [-> | Hne].
  - rewrite filter_cons_True by done. simpl. by rewrite String.eqb_refl.
  - rewrite filter_cons_False by done. simpl.
    apply String.eqb_neq in Hne. by rewrite Hne.
Qed.

(** X19: [activate] is idempotent and does not touch the current
    epoch: running it again changes nothing, and the cache named
    [CACHE_NAME] is the same before and after. *)
Theorem X19_activate_idempotent_keeps_current (cs : CacheStorage) :
  activate (activate cs) = activate cs
  ∧ lookupCache CACHE_NAME (activate cs) = lookupCache CACHE_NAME cs.
Proof.
  rewrite !activate_filter. split.
  - apply filter_all. intros p Hp. by apply list_elem_of_filter in Hp as [? _].
  - apply lookupCache_filter.
Qed.

Lemma cachesMatch_put u r name (cs : CacheStorage) :
  cachesMatch u cs = None →
  (∃ c, (name, c) ∈ cs) →
  cachesMatch u (update name (<[u := r]>) cs) = Some r.
Proof.
  induction cs as [| [n c] rest IH]; intros Hnone [c0 Hin].
  - by apply elem_of_nil in Hin.
  - simpl in Hnone. destruct (c !! u) eqn:Hc; [done |].
    unfold update. simpl. destruct (String.eqb n name) eqn:E; simpl.
    + by rewrite lookup_insert_eq.
    + rewrite Hc. apply IH; [done |].
      apply elem_of_cons in Hin as [[= -> ->] | Hin]; [| by exists c0].
      by rewrite String.eqb_refl in E.
Qed.

(** X20: a GET request that had to go to the network and came back with
    a 200 response of type basic is stored under [CACHE_NAME]: the same
    request is afterwards answered from the cache with that response,
    whatever the network does. *)
Theorem X20_fetched_then_cached
    (network later : Network) (request : Request) (cs : CacheStorage)
    (r : Response) :
  method request = "GET" →
  JS.startsWith "http" (url request) = true →
  cachesMatch (url request) cs = None →
  network (url request) = Some r →
  cacheable r = true →
  let cs' := fst (onFetch network request cs) in
  snd (onFetch network request cs) = FromNetwork r
  ∧ onFetch later request cs' = (cs', FromCache r).
Proof.
  intros Hget Hhttp Hmiss Hnet Hc. cbv zeta.
  unfold cacheable in Hc. apply andb_true_iff in Hc as [Hst Hty].
  assert (onFetch network request cs
          = (update CACHE_NAME (<[url request := r]>) (cachesOpen CACHE_NAME cs),
             FromNetwork r)) as Hfirst.
  { unfold onFetch. by rewrite Hget, Hhttp, Hmiss, Hnet, Hst, Hty. }
  rewrite Hfirst. simpl. split; [done |].
  unfold onFetch. rewrite Hget, Hhttp. simpl.
  rewrite (cachesMatch_put (url request) r); [done | |].
  - by rewrite cachesMatch_open.
  - apply cachesOpen_has.
Qed.

Lemma X20_fetched_then_cached_witness :
  let request := {| method := "GET";
                    url := "https://factory.example/app.js";
                    destination := "script" |} in
  let r := {| r_status := 200; r_type := "basic";
              r_body := "https://factory.example/app.js" |} in
  let cs' := fst (onFetch Demo.online request Demo.epoch_v1_1) in
  snd (onFetch Demo.online request Demo.epoch_v1_1) = FromNetwork r
  ∧ onFetch Demo.offline request cs' = (cs', FromCache r).
Proof.
  cbv zeta.
  apply (X20_fetched_then_cached Demo.online Demo.offline
           {| method := "GET"; url := "https://factory.example/app.js";
              destination := "script" |} Demo.epoch_v1_1);
    vm_compute; reflexivity.
Defined.

(** X21: the [fetch] listener changes the storage only when it has
    fetched a 200 response of type basic; a request passed through, a cache
    hit, any other response and a failed fetch all leave the storage as it
    was. *)
Theorem X21_storage_changes_only_on_cacheable_fetch
    (network : Network) (request : Request) (cs : CacheStorage) :
  fst (onFetch network request cs) = cs
  ∨ ∃ r, snd (onFetch network request cs) = FromNetwork r
         ∧ network (url request) = Some r
         ∧ cacheable r = true.
Proof.
  unfold onFetch, cacheable.
  destruct (negb (String.eqb (method request) "GET")); [by left |].
  destruct (negb (JS.startsWith "http" (url request))); [by left |].
  destruct (cachesMatch (url request) cs); [by left |].
  destruct (network (url request)) as [r |].
  - destruct (r_status r =? 200)%Z eqn:Hst,
             (String.eqb (r_type r) "basic") eqn:Hty; simpl;
      try (by left).
    right. exists r. by rewrite Hst, Hty.
  - destruct (String.eqb (destination request) "document"); by left.
Qed.

(** X22: the [fetch] listener never touches a cache with a name other
    than [CACHE_NAME]. *)
Theorem X22_fetch_keeps_other_epochs
    (network : Network) (request : Request) (cs : CacheStorage)
    (name : string) :
  name ≠ CACHE_NAME →
  lookupCache name (fst (onFetch network request cs)) = lookupCache name cs.
Proof.
  intros Hne. unfold onFetch.
  destruct (negb (String.eqb (method request) "GET")); [done |].
  destruct (negb (JS.startsWith "http" (url request))); [done |].
  destruct (cachesMatch (url request) cs); [done |].
  destruct (network (url request)) as [r |].
  - destruct (negb (r_status r =? 200)%Z
              || negb (String.eqb (r_type r) "basic")); simpl; [done |].
    rewrite lookupCache_update_other by done.
    by apply lookupCache_open_other.
  - by destruct (String.eqb (destination request) "document").
Qed.

Lemma X22_fetch_keeps_other_epochs_witness :
  lookupCache "smart-factory-v1.1"
    (fst (onFetch Demo.online
            {| method := "GET"; url := "https://factory.example/app.js";
               destination := "script" |} Demo.epoch_v1_1))
  = lookupCache "smart-factory-v1.1" Demo.epoch_v1_1.
Proof.
  apply X22_fetch_keeps_other_epochs. vm_compute. discriminate.
Defined.

(** X23: with no network at all, a GET request over http(s) is answered
    from the cache when some cache holds its URL, by the offline page when
    none does and the request is for a document, and by no response
    otherwise; the storage is left as it was. *)
Theorem X23_offline_answers
    (network : Network) (request : Request) (cs : CacheStorage) :
  method request = "GET" →
  JS.startsWith "http" (url request) = true →
  network (url request) = None →
  onFetch network request cs
  = (cs,
     match cachesMatch (url request) cs with
     | Some r => FromCache r
     | None =>
         if String.eqb (destination request) "document"
         then OfflinePage else NoResponse
     end).
Proof.
  intros Hget Hhttp Hnet. unfold onFetch. rewrite Hget, Hhttp, Hnet. simpl.
  destruct (cachesMatch (url request) cs); [done |].
  by destruct (String.eqb (destination request) "document").
Qed.

Lemma X23_offline_answers_witness :
  onFetch Demo.offline
    {| method := "GET"; url := "https://factory.example/missing";
       destination := "document" |} Demo.epoch_v1_1
  = (Demo.epoch_v1_1, OfflinePage).
Proof.
  apply (X23_offline_answers Demo.offline
           {| method := "GET"; url := "https://factory.example/missing";
              destination := "document" |} Demo.epoch_v1_1);
    reflexivity.
Defined.

End ServiceWorkerMore.

(** ** Further properties of the telemetry channel *)

Module ChannelMore.
Import Notions Channel ChannelFacts.

Lemma step_counts st l st' :
  step st l = Some st' →
  connects st' = (connects st + (if isConnect l then 1 else 0))%nat
  ∧ (length (timers st') + (if isTimer l then 1 else 0)
     = length (timers st) + (if isClose l then 1 else 0))%nat.
Proof.
  unfold connects. destruct l as [i | i | i | i | k c |]; simpl.
  - destruct (sockets st !! i) as [[] |]; intros [= <-]; simpl.
    rewrite length_insert. lia.
  - destruct (sockets st !! i) as [[] |]; intros [= <-]; simpl. lia.
  - destruct (sockets st !! i) as [[] |]; intros [= <-]; simpl; lia.
  - destruct (sockets st !! i) as [[] |]; intros [= <-]; simpl;
      rewrite length_insert, length_app; simpl; lia.
  - destruct (timers st !! k) as [d |] eqn:Hk; intros [= <-].
    assert (is_Some (timers st !! k)) as Hsome by (by eexists).
    apply lookup_lt_Some in Hk.
    destruct c; simpl; rewrite ?length_app, length_delete by done;
      simpl; lia.
  - intros [= <-]. rewrite dispose_timers.
    pose proof (dispose_connects st) as H. unfold connects in H. lia.
Qed.

(** X24: along any run of the channel, [connect] is called once for every
    reconnect timer that fires and constructs its socket, and never
    otherwise; and one reconnect timer is armed per close event, so the
    timers pending at the end are those pending at the start, plus the
    close events, minus the timers that fired. *)
Theorem X24_one_reconnect_per_close
    (ls : list Label) (st st' : State) :
  run ls st = Some st' →
  connects st' = (connects st + count isConnect ls)%nat
  ∧ (length (timers st') + count isTimer ls
     = length (timers st) + count isClose ls)%nat.
Proof.
  revert st. unfold count.
  induction ls as [| l rest IH]; intros st; simpl.
  - intros [= <-]. lia.
  - destruct (step st l) as [st1 |] eqn:Hstep; [| done].
    intros Hrun. apply IH in Hrun as [Hc Ht].
    apply step_counts in Hstep as [Hc1 Ht1].
    destruct (isConnect l), (isTimer l), (isClose l); simpl; lia.
Qed.

Lemma X24_one_reconnect_per_close_witness :
  ∃ st', run [Close 0%nat; Timer 0%nat true; Open 1%nat; Close 1%nat]
           connected = Some st'
         ∧ connects st' = 2%nat
         ∧ length (timers st') = 1%nat.
Proof.
  eexists. split; [reflexivity |].
  destruct (X24_one_reconnect_per_close
              [Close 0%nat; Timer 0%nat true; Open 1%nat; Close 1%nat]
              connected _ eq_refl) as [Hc Ht].
  split; [exact Hc |]. cbv in Ht |- *. lia.
Defined.

Lemma close_keeps_closed i j ss :
  ss !! i = Some CLOSED → close j ss !! i = Some CLOSED.
Proof.
  intros Hi. unfold close. destruct (ss !! j) as [[] |] eqn:Hj; try done.
  - rewrite list_lookup_insert_ne; [done | congruence].
  - rewrite list_lookup_insert_ne; [done | congruence].
Qed.

Lemma step_keeps_closed st l st' (i : nat) :
  sockets st !! i = Some CLOSED →
  step st l = Some st' →
  sockets st' !! i = Some CLOSED.
Proof.
  intros Hi. destruct l as [j | j | j | j | k c |]; simpl.
  - destruct (sockets st !! j) as [[] |] eqn:Hj; intros [= <-]; simpl.
    rewrite list_lookup_insert_ne; [done | congruence].
  - by destruct (sockets st !! j) as [[] |]; intros [= <-].
  - by destruct (sockets st !! j) as [[] |]; intros [= <-].
  - destruct (sockets st !! j) as [[] |] eqn:Hj; intros [= <-]; simpl;
      (rewrite list_lookup_insert_ne; [done | congruence]).
  - destruct (timers st !! k); intros [= <-].
    destruct c; simpl; [| done].
    apply lookup_app_l_Some. done.
  - intros [= <-]. simpl. destruct (socket st); [| done].
    by apply close_keeps_closed.
Qed.

(** X25: a socket that has closed stays closed through everything that
    happens afterwards, so its close event, and with it the reconnect that
    the event arms, occurs at most once. *)
Theorem X25_closed_socket_stays_closed
    (ls : list Label) (st st' : State) (i : nat) :
  sockets st !! i = Some CLOSED →
  run ls st = Some st' →
  sockets st' !! i = Some CLOSED
  ∧ step st' (Close i) = None
  ∧ step st' (Open i) = None.
Proof.
  revert st. induction ls as [| l rest IH]; intros st Hi; simpl.
  - intros [= <-]. unfold step. by rewrite Hi.
  - destruct (step st l) as [st1 |] eqn:Hstep; [| done].
    apply IH. by apply (step_keeps_closed st l).
Qed.

Lemma X25_closed_socket_stays_closed_witness :
  ∃ st', run [Timer 0%nat true; Open 1%nat; Dispose] Demo.reconnectPending
         = Some st'
         ∧ sockets st' !! 0%nat = Some CLOSED
         ∧ step st' (Close 0%nat) = None
         ∧ step st' (Open 0%nat) = None.
Proof.
  eexists. split; [reflexivity |].
  apply (X25_closed_socket_stays_closed
           [Timer 0%nat true; Open 1%nat; Dispose] Demo.reconnectPending);
    reflexivity.
Defined.

Lemma close_idem i ss : close i (close i ss) = close i ss.
Proof.
  assert (close i ss = ss ∨ (close i ss = <[i := CLOSING]> ss
                             ∧ i < length ss)) as [Heq | [Heq Hlt]].
  { unfold close. destruct (ss !! i) as [[] |] eqn:Hi; auto;
      right; (split; [done | by apply lookup_lt_Some in Hi]). }
  - by rewrite !Heq.
  - rewrite Heq. unfold close. by rewrite list_lookup_insert_eq.
Qed.

(** X26: [dispose] may be called again: a second call changes nothing. *)
Theorem X26_dispose_idempotent (st : State) :
  dispose (dispose st) = dispose st.
Proof.
  unfold dispose. simpl.
  destruct (socket st) as [i |]; destruct (animationId st);
    by rewrite ?close_idem.
Qed.

(** A channel with every socket closed and no timer pending. *)
Lemma step_when_idle st l st' :
  Forall (eq CLOSED) (sockets st) → timers st = [] →
  step st l = Some st' →
  Forall (eq CLOSED) (sockets st') ∧ timers st' = []
  ∧ connects st' = connects st.
Proof.
  intros Hall Ht.
  assert (∀ j x, sockets st !! j = Some x → x = CLOSED) as Hclosed.
  { intros j x Hj. rewrite Forall_forall in Hall. symmetry. apply Hall.
    by apply list_elem_of_lookup_2 in Hj. }
  destruct l as [j | j | j | j | k c |]; simpl.
  - destruct (sockets st !! j) as [x |] eqn:Hj; [| done].
    rewrite (Hclosed _ _ Hj). done.
  - destruct (sockets st !! j) as [x |] eqn:Hj; [| done].
    rewrite (Hclosed _ _ Hj). done.
  - destruct (sockets st !! j) as [x |] eqn:Hj; [| done].
    rewrite (Hclosed _ _ Hj). done.
  - destruct (sockets st !! j) as [x |] eqn:Hj; [| done].
    rewrite (Hclosed _ _ Hj). done.
  - rewrite Ht. by rewrite lookup_nil.
  - intros [= <-]. rewrite dispose_timers, dispose_connects.
    split; [| done]. unfold dispose. simpl.
    destruct (socket st) as [i |]; [| done].
    unfold close. destruct (sockets st !! i) as [x |] eqn:Hi; [| done].
    by rewrite (Hclosed _ _ Hi).
Qed.

(** X27: when the [WebSocket] constructor throws inside the last pending
    reconnect callback of a channel whose sockets have all closed, the
    exception is swallowed and nothing is armed again: the channel never
    calls [connect] any more. *)
Theorem X27_failed_constructor_ends_reconnection
    (st : State) (d : Z) (ls : list Label) :
  Forall (eq CLOSED) (sockets st) →
  timers st = [d] →
  ∃ st1, step st (Timer 0%nat false) = Some st1
         ∧ ∀ st2, run ls st1 = Some st2 →
             connects st2 = connects st ∧ timers st2 = [].
Proof.
  intros Hall Ht. eexists. split.
  { unfold step. rewrite Ht. simpl. reflexivity. }
  assert (∀ ls s1 s2,
            Forall (eq CLOSED) (sockets s1) → timers s1 = [] →
            run ls s1 = Some s2 →
            connects s2 = connects s1 ∧ timers s2 = []) as Hidle.
  { clear. induction ls as [| l rest IH]; intros s1 s2 Hs Ht; simpl.
    - by intros [= <-].
    - destruct (step s1 l) as [s' |] eqn:Hstep; [| done].
      destruct (step_when_idle _ _ _ Hs Ht Hstep) as (Hs' & Ht' & Hc).
      intros Hrun. destruct (IH _ _ Hs' Ht' Hrun) as [Hc2 Ht2].
      split; [congruence | done]. }
  intros st2 Hrun.
  eapply Hidle in Hrun; [exact Hrun | exact Hall | reflexivity].
Qed.

Lemma X27_failed_constructor_ends_reconnection_witness :
  ∃ st1, step Demo.reconnectPending (Timer 0%nat false) = Some st1
         ∧ ∀ st2, run [Dispose] st1 = Some st2 →
             connects st2 = 1%nat ∧ timers st2 = [].
Proof.
  apply (X27_failed_constructor_ends_reconnection Demo.reconnectPending
           5000 [Dispose]).
  - repeat constructor.
  - reflexivity.
Defined.

End ChannelMore.


(** ** Frames and the prototype chain *)

Module PrototypeFacts.
Import Factory Prototype.

Lemma getProperty_Own {A} (obj : gmap string A) (key : string) (a : A) :
  getProperty obj key = Own a ↔ obj !! key = Some a.
Proof.
  unfold getProperty. destruct (obj !! key) as [b |].
  - split; by intros [= ->].
  - destruct (existsb _ _); split; discriminate.
Qed.

Lemma getProperty_Inherited {A} (obj : gmap string A) (key : string) :
  getProperty obj key = Inherited
  ↔ obj !! key = None ∧ key ∈ objectPrototypeNames.
Proof.
  unfold getProperty. destruct (obj !! key) as [b |].
  - split; [discriminate | by intros [? _]].
  - destruct (existsb (String.eqb key) objectPrototypeNames) eqn:E.
    + split; [| done]. intros _. split; [done |].
      apply existsb_exists in E as (x & Hx & Heq).
      apply String.eqb_eq in Heq. subst x. by apply list_elem_of_In.
    + split; [discriminate |]. intros [_ Hin]. exfalso.
      assert (existsb (String.eqb key) objectPrototypeNames = true); [| congruence].
      apply existsb_exists. exists key.
      split; [by apply list_elem_of_In | apply String.eqb_refl].
Qed.

Lemma getProperty_lookup_None {A} (obj : gmap string A) (key : string) :
  getProperty obj key ≠ Inherited →
  (∀ a, getProperty obj key ≠ Own a) →
  obj !! key = None.
Proof.
  unfold getProperty. destruct (obj !! key) as [b |]; [| done].
  intros _ H. by destruct (H b).
Qed.

(** For every id that finds no inherited value, the handler is the one
    of module [Factory]. *)
Lemma handleRealtimeData_own_keys (data : Event) (s : Store) :
  getProperty (machines s) (machineId data) ≠ Inherited →
  handleRealtimeData (JsonObject data) s
  = Returned (fst (Factory.handleRealtimeData data s))
             (snd (Factory.handleRealtimeData data s)).
Proof.
  intros Hni. unfold handleRealtimeData.
  destruct (String.eqb (ev_type data) "machineStatus") eqn:Hty;
    [| by destruct (Factory.handleRealtimeData data s)].
  destruct (getProperty (machines s) (machineId data)) as [m | |] eqn:Hp.
  - by destruct (Factory.handleRealtimeData data s).
  - done.
  - assert (machines s !! machineId data = None) as Hnone.
    { apply getProperty_lookup_None; rewrite Hp; [done |]. by intros a. }
    unfold Factory.handleRealtimeData. rewrite Hty, Hnone.
    apply String.eqb_eq in Hty. by rewrite Hty.
Qed.

(** The frames the handler ignores: an object of another type, and a
    [machineStatus] frame whose id finds nothing at all. *)
Lemma handleRealtimeData_ignored (data : Event) (s : Store) :
  (ev_type data ≠ "machineStatus" ∧ ev_type data ≠ "alert")
  ∨ (ev_type data = "machineStatus"
     ∧ getProperty (machines s) (machineId data) = Absent) →
  handleRealtimeData (JsonObject data) s = Returned s [].
Proof.
  unfold handleRealtimeData. intros [[Hms Hal] | [Hms Hnone]].
  - apply String.eqb_neq in Hms, Hal. rewrite Hms.
    unfold Factory.handleRealtimeData. by rewrite Hms, Hal.
  - by rewrite Hms, Hnone.
Qed.

(** Every [machineStatus] frame whose id is an inherited name and not a
    stored machine ends in a [TypeError]. *)
Lemma handleRealtimeData_inherited (data : Event) (s : Store) :
  ev_type data = "machineStatus" →
  machines s !! machineId data = None →
  machineId data ∈ objectPrototypeNames →
  handleRealtimeData (JsonObject data) s = Threw s (Some (machineId data)).
Proof.
  intros Hty Hnone Hin. unfold handleRealtimeData. rewrite Hty. simpl.
  assert (getProperty (machines s) (machineId data) = Inherited) as ->
    by (by apply getProperty_Inherited).
  done.
Qed.

(** C9 (failing input): no machine of line C is stored under
    'constructor' or '__proto__', yet a machineStatus frame with either id
    finds the value every object inherits under that name, takes the branch
    and ends in a TypeError instead of being ignored; a null frame throws
    as well.  The store itself is as before. *)
Theorem C9_inherited_id_throws :
  machines Demo.lineC_store !! "constructor" = None
  ∧ machines Demo.lineC_store !! "__proto__" = None
  ∧ handleRealtimeData
      (JsonObject (Demo.statusFrame "constructor" "offline")) Demo.lineC_store
    = Threw Demo.lineC_store (Some "constructor")
  ∧ handleRealtimeData
      (JsonObject (Demo.statusFrame "__proto__" "offline")) Demo.lineC_store
    = Threw Demo.lineC_store (Some "__proto__")
  ∧ handleRealtimeData JsonNull Demo.lineC_store = Threw Demo.lineC_store None.
Proof.
  repeat split; vm_compute; reflexivity.
Qed.

End PrototypeFacts.

(** ** The assessment in binary64 *)

Module DoublesFacts.
Import Prototype Doubles.

Lemma floor_half_bounds (q k : Z) :
  (0 < k)%Z →
  ((2 * ((2 * q + k) / (2 * k)) - 1) * k <= 2 * q)%Z
  ∧ (2 * q < (2 * ((2 * q + k) / (2 * k)) + 1) * k)%Z.
Proof.
  intros Hk.
  pose proof (Z.div_mod (2 * q + k) (2 * k)) as Hdm.
  pose proof (Z.mod_pos_bound (2 * q + k) (2 * k)) as Hb.
  split; nia.
Qed.

(** [Math.round] returns the integer nearest to its argument, the upper
    one of two that are equally near. *)
Lemma round_nearest_integer (x : float) (n : Z) :
  round x = Integer n →
  ∃ v, exact x = Some v
       ∧ (inject_Z n - (1 # 2) <= v)%Q ∧ (v < inject_Z n + (1 # 2))%Q.
Proof.
  unfold round, exact. destruct (Prim2SF x) as [s | s | | s m e]; try done.
  - intros [= <-]. exists 0%Q. split; [done |]. split; [done | reflexivity].
  - destruct (0 <=? e)%Z eqn:He.
    + intros [= <-]. eexists. split; [reflexivity |].
      match goal with
      | |- context [inject_Z ?z] => generalize (inject_Z z)
      end.
      intros v. split; lra.
    + intros [= <-]. eexists. split; [reflexivity |].
      set (q := if s then Z.neg m else Z.pos m).
      apply Z.leb_gt in He.
      assert (0 < 2 ^ (- e))%Z as Hk by (apply Z.pow_pos_nonneg; lia).
      destruct (floor_half_bounds q (2 ^ (- e)) Hk) as [Hlo Hhi].
      unfold Qle, Qlt, Qplus, Qminus, Qopp, inject_Z. simpl.
      rewrite !Z2Pos.id by done. split; lia.
Qed.

(** A valid [Date] holds its argument cut to a whole millisecond. *)
Lemma dateOf_truncates (t : float) (ms : Z) :
  dateOf t = Some ms →
  ∃ v, exact t = Some v
       ∧ (- (1) < v - inject_Z ms)%Q ∧ (v - inject_Z ms < 1)%Q.
Proof.
  unfold dateOf, exact. destruct (Prim2SF t) as [s | s | | s m e]; try done.
  - intros [= <-]. exists 0%Q. split; [done |]. split; reflexivity.
  - destruct (8640000000000000 <? PrimFloat.abs t)%float; [done |].
    destruct (0 <=? e)%Z eqn:He.
    + intros [= <-]. eexists. split; [reflexivity |].
      match goal with
      | |- context [inject_Z ?z] => generalize (inject_Z z)
      end.
      intros v. split; lra.
    + intros [= <-]. eexists. split; [reflexivity |].
      apply Z.leb_gt in He.
      assert (0 < 2 ^ (- e))%Z as Hk by (apply Z.pow_pos_nonneg; lia).
      pose proof (Z.div_mod (Z.pos m) (2 ^ (- e))) as Hdm.
      pose proof (Z.mod_pos_bound (Z.pos m) (2 ^ (- e)) Hk) as Hb.
      unfold Qle, Qlt, Qplus, Qminus, Qopp, inject_Z. simpl.
      rewrite !Z2Pos.id by done.
      destruct s; split; nia.
Qed.

(** C5 (amended): for a stored machine, in binary64, the returned
    daysToMaintenance is Math.round of max(0, 14 - overallRisk * 14), a
    whole number at most half a day from it, and the returned
    predictedMaintenanceDate is the date made from the clock reading plus
    the unrounded max(0, 14 - overallRisk * 14) times 24 * 60 * 60 * 1000,
    cut to a whole millisecond. *)
Theorem C5_days_rounded_date_unrounded
    (machineId : string) (now_run now_date : Z) (rnd : float)
    (machines : gmap string Machine) (machine : Machine) :
  machines !! machineId = Some machine →
  ∃ a,
    calculatePredictiveMaintenance machineId now_run now_date rnd machines
    = Some a
    ∧ riskScore a = overallRisk (factorsOf (Some machine) now_run rnd)
    ∧ daysToMaintenance a = round (max 0 (14 - riskScore a * 14))
    ∧ predictedMaintenanceDate a
      = dateOf (ofZ now_date
                + max 0 (14 - riskScore a * 14) * 24 * 60 * 60 * 1000)
    ∧ (∀ n, daysToMaintenance a = Integer n →
         ∃ v, exact (max 0 (14 - riskScore a * 14)) = Some v
              ∧ (inject_Z n - (1 # 2) <= v)%Q
              ∧ (v < inject_Z n + (1 # 2))%Q)
    ∧ (∀ ms, predictedMaintenanceDate a = Some ms →
         ∃ v, exact (ofZ now_date
                     + max 0 (14 - riskScore a * 14) * 24 * 60 * 60 * 1000)
              = Some v
              ∧ (- (1) < v - inject_Z ms)%Q ∧ (v - inject_Z ms < 1)%Q).
Proof.
  intros Hm. unfold calculatePredictiveMaintenance.
  apply PrototypeFacts.getProperty_Own in Hm. rewrite Hm.
  eexists. split; [reflexivity |].
  cbn [riskScore daysToMaintenance predictedMaintenanceDate].
  unfold maintenanceWindow, dateArgument.
  split; [reflexivity |]. split; [reflexivity |]. split; [reflexivity |].
  split.
  - intros n Hn. by apply round_nearest_integer.
  - intros ms Hms. by apply dateOf_truncates.
Qed.

Lemma C5_days_rounded_date_unrounded_witness :
  ∃ a,
    calculatePredictiveMaintenance "MACHINE_C1"
      1698704000000 1698704000000 0.5 {[ "MACHINE_C1" := mild ]}
    = Some a
    ∧ daysToMaintenance a = Integer 13
    ∧ predictedMaintenanceDate a = Some 1699792640000%Z.
Proof.
  destruct (C5_days_rounded_date_unrounded "MACHINE_C1"
              1698704000000 1698704000000 0.5 {[ "MACHINE_C1" := mild ]} mild)
    as (a & Ha & _ & Hd & Hp & _).
  - reflexivity.
  - exists a. split; [exact Ha |].
    rewrite Hd, Hp. vm_compute in Ha. injection Ha as <-.
    split; vm_compute; reflexivity.
Defined.

(** At 82.5 degrees, vibration 10 and efficiency 63, eighteen days after
    the last maintenance, the four components sum to 3.0000000000000004:
    the risk is 0.7500000000000001, the window 3.4999999999999982, and
    three days are returned. *)
Example borderline_three_days :
  ∃ a,
    calculatePredictiveMaintenance "MACHINE_C1"
      (1698704000000 + 1555200000) (1698704000000 + 1555200000) 0.5
      {[ "MACHINE_C1" := borderline ]}
    = Some a
    ∧ riskScore a = 0x1.8000000000001p-1%float
    ∧ maintenanceWindow (riskScore a) = 0x1.bfffffffffffcp+1%float
    ∧ daysToMaintenance a = Integer 3.
Proof.
  eexists. split; [vm_compute; reflexivity |].
  repeat split; vm_compute; reflexivity.
Qed.

(** An id that names an inherited property is assessed although no
    machine is stored under it: every factor is undefined, the risk is NaN,
    no day count and no valid date come out, and the recommendation is
    LOW. *)
Example inherited_id_is_assessed :
  ∃ a,
    calculatePredictiveMaintenance "constructor"
      1700000000000 1700000000000 0.5 {[ "MACHINE_C1" := mild ]}
    = Some a
    ∧ PrimFloat.is_nan (riskScore a) = true
    ∧ daysToMaintenance a = NotANumber
    ∧ predictedMaintenanceDate a = None
    ∧ Predictive.priority (recommendation a) = "LOW".
Proof.
  eexists. split; [vm_compute; reflexivity |].
  repeat split; vm_compute; reflexivity.
Qed.

Example unknown_id_is_null :
  calculatePredictiveMaintenance "MACHINE_Z9"
    1700000000000 1700000000000 0.5 {[ "MACHINE_C1" := mild ]}
  = None.
Proof. vm_compute. reflexivity. Qed.

End DoublesFacts.

(** ** Machine selection *)

Module SelectingFacts.
Import Factory Prototype Selecting PrototypeFacts.

Lemma inherited_is_truthy {A} (obj : gmap string A) (key : string) :
  getProperty obj key = Inherited → truthyString key = true.
Proof.
  intros H. apply getProperty_Inherited in H as [_ Hin].
  unfold truthyString. apply negb_true_iff, String.eqb_neq. intros ->.
  revert Hin. unfold objectPrototypeNames.
  rewrite !elem_of_cons, elem_of_nil. intros H.
  repeat (destruct H as [H | H]; [discriminate H |]). done.
Qed.

(** Once the previous selection is cleared no body is highlighted. *)
Lemma deselected_clear (s : Store) (sel : Selection) :
  machines s !! "" = None →
  highlightMatches s sel →
  ∀ id : string,
    default 0%Z
      (match previousSelection s sel with
       | Some (previous, Own _) => <[previous := 0x000000%Z]> (emissive sel)
       | _ => emissive sel
       end !! id) = 0%Z.
Proof.
  intros Hempty Hinv id. specialize (Hinv id). unfold emissiveOf in Hinv.
  unfold previousSelection.
  destruct (selectedMachine sel) as [previous |] eqn:Hsel.
  - destruct (truthyString previous) eqn:Htruthy.
    + destruct (getProperty (machines s) previous) as [m | |] eqn:Hp.
      * destruct (decide (previous = id)) as [-> | Hne].
        -- by rewrite lookup_insert_eq.
        -- rewrite lookup_insert_ne by done. rewrite Hinv.
           destruct (decide (Some previous = Some id
                             ∧ is_Some (machines s !! id)))
             as [[[= ?] _] | _]; done.
      * rewrite Hinv.
        destruct (decide (Some previous = Some id
                          ∧ is_Some (machines s !! id)))
          as [[[= ->] [m Hm]] | _]; [| done].
        apply getProperty_Own in Hm. congruence.
      * rewrite Hinv.
        destruct (decide (Some previous = Some id
                          ∧ is_Some (machines s !! id)))
          as [[[= ->] [m Hm]] | _]; [| done].
        apply getProperty_Own in Hm. congruence.
    + unfold truthyString in Htruthy. apply negb_false_iff in Htruthy.
      apply String.eqb_eq in Htruthy. subst previous.
      rewrite Hinv.
      destruct (decide (Some "" = Some id ∧ is_Some (machines s !! id)))
        as [[[= <-] [m Hm]] | _]; [congruence | done].
  - rewrite Hinv.
    destruct (decide (None = Some id ∧ is_Some (machines s !! id)))
      as [[Hn _] | _]; [discriminate Hn | done].
Qed.

(** A call in which neither the previous nor the new id finds an
    inherited value. *)
Lemma selectMachine_normal (s : Store) (sel : Selection) (x : string) :
  selectionSound s sel →
  getProperty (machines s) x ≠ Inherited →
  selectMachine x s sel
  = ({| selectedMachine := Some x;
        emissive :=
          let deselected :=
            match previousSelection s sel with
            | Some (previous, Own _) =>
                <[previous := 0x000000%Z]> (emissive sel)
            | _ => emissive sel
            end in
          match machines s !! x with
          | Some _ => <[x := 0x666666%Z]> deselected
          | None => deselected
          end |},
     Completed).
Proof.
  intros Hsound Hx.
  assert (∀ previous, previousSelection s sel ≠ Some (previous, Inherited))
    as Hprev.
  { intros previous. unfold previousSelection.
    destruct (selectedMachine sel) as [p |] eqn:Hsel; [| done].
    destruct (truthyString p); [| done].
    intros [= -> Hp]. by apply (Hsound previous). }
  assert (match getProperty (machines s) x with
          | Own _ => is_Some (machines s !! x)
          | _ => machines s !! x = None
          end) as Hlook.
  { unfold getProperty. destruct (machines s !! x); [by eexists |].
    by destruct (existsb _ _). }
  unfold selectMachine. cbv zeta.
  destruct (previousSelection s sel) as [[previous [m | |]] |] eqn:Hfound.
  - destruct (getProperty (machines s) x) as [mx | |]; [| done |].
    + by destruct Hlook as [m' ->].
    + by rewrite Hlook.
  - by destruct (Hprev previous).
  - destruct (getProperty (machines s) x) as [mx | |]; [| done |].
    + by destruct Hlook as [m' ->].
    + by rewrite Hlook.
  - destruct (getProperty (machines s) x) as [mx | |]; [| done |].
    + by destruct Hlook as [m' ->].
    + by rewrite Hlook.
Qed.

Lemma selectMachine_keeps (s : Store) (sel : Selection) (x : string) :
  machines s !! "" = None →
  highlightMatches s sel →
  selectionSound s sel →
  getProperty (machines s) x ≠ Inherited →
  highlightMatches s (fst (selectMachine x s sel))
  ∧ selectionSound s (fst (selectMachine x s sel))
  ∧ snd (selectMachine x s sel) = Completed.
Proof.
  intros Hempty Hinv Hsound Hx.
  pose proof (deselected_clear s sel Hempty Hinv) as Hclear.
  rewrite (selectMachine_normal s sel x Hsound Hx). cbv zeta. simpl.
  split; [| split; [| done]].
  - intros id. unfold emissiveOf. simpl.
    destruct (machines s !! x) as [m |] eqn:Hmx.
    + destruct (decide (x = id)) as [-> | Hne].
      * rewrite lookup_insert_eq. simpl.
        destruct (decide (Some id = Some id ∧ is_Some (machines s !! id)))
          as [_ | Hno]; [done |]. destruct Hno. split; [done | by eexists].
      * rewrite lookup_insert_ne by done. rewrite (Hclear id).
        destruct (decide (Some x = Some id ∧ is_Some (machines s !! id)))
          as [[[= ?] _] | _]; done.
    + rewrite (Hclear id).
      destruct (decide (Some x = Some id ∧ is_Some (machines s !! id)))
        as [[[= <-] [m' Hm']] | _]; [congruence | done].
  - intros p [= <-]. done.
Qed.

(** X28: in a store with no machine under the empty id, after any
    sequence of selections none of which uses the name of an inherited
    property (unless a machine is stored under it), starting with nothing
    selected, the body of the machine selected last is highlighted if that
    machine is stored, and no other body is: selecting an unknown id clears
    the highlight. *)
Theorem X28_only_the_selection_is_highlighted
    (ids : list string) (s : Store) :
  machines s !! "" = None →
  Forall (fun id => getProperty (machines s) id ≠ Inherited) ids →
  highlightMatches s (selectAll ids s noSelection).
Proof.
  intros Hempty Hids. unfold selectAll.
  assert (highlightMatches s noSelection) as Hinit.
  { intros id. unfold emissiveOf, noSelection.
    cbn [emissive selectedMachine]. rewrite lookup_empty.
    destruct (decide (None = Some id ∧ is_Some (machines s !! id)))
      as [[Hsel _] | _]; [discriminate Hsel | done]. }
  assert (selectionSound s noSelection) as Hsound by (by intros p).
  revert Hinit Hsound. generalize noSelection.
  induction Hids as [| x rest Hx Hrest IH]; intros sel Hinv Hsound; [done |].
  simpl.
  destruct (selectMachine_keeps s sel x Hempty Hinv Hsound Hx)
    as (Hinv' & Hsound' & _).
  by apply IH.
Qed.

Lemma X28_only_the_selection_is_highlighted_witness :
  emissiveOf (selectAll ["MACHINE_C1"; "MACHINE_C2"] Demo.lineC_store noSelection)
    "MACHINE_C2" = 0x666666%Z
  ∧ emissiveOf (selectAll ["MACHINE_C1"; "MACHINE_C2"] Demo.lineC_store noSelection)
      "MACHINE_C1" = 0x000000%Z.
Proof.
  assert (Forall (fun id => getProperty (machines Demo.lineC_store) id ≠ Inherited)
            ["MACHINE_C1"; "MACHINE_C2"]) as Hids
    by (repeat constructor; vm_compute; discriminate).
  pose proof (X28_only_the_selection_is_highlighted
                ["MACHINE_C1"; "MACHINE_C2"] Demo.lineC_store eq_refl Hids) as H.
  split.
  - rewrite (H "MACHINE_C2"). vm_compute. reflexivity.
  - rewrite (H "MACHINE_C1"). vm_compute. reflexivity.
Defined.

(** X29: once the name of an inherited property that is not a stored
    machine has been selected, every later call of [selectMachine] ends in
    a TypeError at the deselect step and changes nothing: the selection
    stays on that name and no other machine can be selected any more. *)
Theorem X29_inherited_selection_is_stuck
    (key : string) (s : Store) (sel : Selection)
    (ids : list string) (id : string) :
  getProperty (machines s) key = Inherited →
  selectedMachine sel = Some key →
  selectAll ids s sel = sel
  ∧ selectMachine id s (selectAll ids s sel) = (sel, TypeError).
Proof.
  intros Hkey Hsel.
  assert (∀ x, selectMachine x s sel = (sel, TypeError)) as Hstuck.
  { intros x. unfold selectMachine, previousSelection.
    by rewrite Hsel, (inherited_is_truthy _ _ Hkey), Hkey. }
  assert (selectAll ids s sel = sel) as Hall.
  { unfold selectAll. induction ids as [| x rest IH]; [done |].
    simpl. by rewrite Hstuck. }
  split; [done |]. by rewrite Hall.
Qed.

Lemma X29_inherited_selection_is_stuck_witness :
  let stuck := fst (selectMachine "toString" Demo.lineC_store noSelection) in
  snd (selectMachine "toString" Demo.lineC_store noSelection) = TypeError
  ∧ selectAll ["MACHINE_C1"; "MACHINE_C2"] Demo.lineC_store stuck = stuck
  ∧ selectMachine "MACHINE_C3" Demo.lineC_store
      (selectAll ["MACHINE_C1"; "MACHINE_C2"] Demo.lineC_store stuck)
    = (stuck, TypeError).
Proof.
  cbv zeta. split; [vm_compute; reflexivity |].
  apply (X29_inherited_selection_is_stuck "toString" Demo.lineC_store
           (fst (selectMachine "toString" Demo.lineC_store noSelection))
           ["MACHINE_C1"; "MACHINE_C2"] "MACHINE_C3");
    vm_compute; reflexivity.
Defined.

End SelectingFacts.
